(** * ophyd.areadetector.plugins: type validation, staging directives,
      upstream pipeline resolution, plugin discovery and the ROI setter.

    A shallow embedding of [ophyd/areadetector/plugins.py].  Python objects
    become records, [OrderedDict]s become association lists that keep the
    insertion order, exceptions become values of [exn], and every call that
    leaves the module (a signal read, a signal write, channel access) is
    answered by the world the code runs in. *)

From Stdlib Require Import String Ascii ZArith QArith.
From stdpp Require Import base strings list gmap.

Open Scope string_scope.
Open Scope list_scope.

(** ** Exceptions and results *)

(** The exceptions the module raises itself or lets through.  [External]
    stands for any other exception raised by a collaborator. *)
Inductive exn : Type :=
| DestroyedError
| PluginMisconfigurationError (msg : string)
| ValueError (msg : string)
| KeyError
| TypeError
| UnboundLocalError (var : string)
| AttributeError (attr : string)
| External (name : string).

Inductive result (A : Type) : Type :=
| Return (a : A)
| Raise (e : exn).
Arguments Return {A} a.
Arguments Raise {A} e.

(** ** A state and exception monad

    A Python method is a function of the state it runs in; it returns or
    raises, and whatever it mutated before raising stays mutated. *)
Definition Py (S A : Type) : Type := S → result A * S.

Definition ret {S A} (a : A) : Py S A := fun s => (Return a, s).
Definition raise {S A} (e : exn) : Py S A := fun s => (Raise e, s).
Definition bind {S A B} (m : Py S A) (k : A → Py S B) : Py S B :=
  fun s => match m s with
           | (Return a, s') => k a s'
           | (Raise e, s') => (Raise e, s')
           end.
Definition gets {S A} (f : S → A) : Py S A := fun s => (Return (f s), s).
Definition modify {S} (f : S → S) : Py S unit := fun s => (Return tt, f s).
(** An external call whose outcome the state dictates. *)
Definition outcome {S A} (f : S → result A) : Py S A := fun s => (f s, s).
(** [try: m except e0: h] for an exception without arguments. *)
Definition try_except {S A} (m : Py S A) (catches : exn → bool) (h : Py S A)
  : Py S A :=
  fun s => match m s with
           | (Raise e, s') => if catches e then h s' else (Raise e, s')
           | r => r
           end.

#[export] Instance Py_ret {S} : MRet (Py S) := fun A a => ret a.
#[export] Instance Py_bind {S} : MBind (Py S) := fun A B k m => bind m k.

(** ** Python strings *)

(** [s.startswith(t)] *)
Definition startswith (s t : string) : bool := String.prefix t s.

(** [s.split(' ')[0]]: the text before the first space, all of [s] when it
    has none. *)
Fixpoint split_space_0 (s : string) : string :=
  match s with
  | EmptyString => EmptyString
  | String c r => if Ascii.eqb c " "%char then EmptyString
                  else String c (split_space_0 r)
  end.

(** The values that appear as staging targets, configuration entries and
    written set points. *)
Inductive pyval : Type :=
| VInt (n : Z)
| VStr (s : string).

(** ** OrderedDict

    Keys in insertion order; assigning to a key that is present replaces the
    value where the key stands. *)
Section OrderedDict.
Context {K V : Type} `{EqDecision K}.

Fixpoint od_get (k : K) (d : list (K * V)) : option V :=
  match d with
  | [] => None
  | (k', v) :: r => if bool_decide (k' = k) then Some v else od_get k r
  end.

(** [d[k] = v] *)
Fixpoint od_setitem (k : K) (v : V) (d : list (K * V)) : list (K * V) :=
  match d with
  | [] => [(k, v)]
  | (k', v') :: r =>
      if bool_decide (k' = k) then (k, v) :: r
      else (k', v') :: od_setitem k v r
  end.

(** [d.update(other)] *)
Definition od_update (d other : list (K * V)) : list (K * V) :=
  foldl (fun acc kv => od_setitem kv.1 kv.2 acc) d other.

Fixpoint od_remove (k : K) (d : list (K * V)) : list (K * V) :=
  match d with
  | [] => []
  | (k', v) :: r =>
      if bool_decide (k' = k) then od_remove k r
      else (k', v) :: od_remove k r
  end.

(** [d.move_to_end(k, last=False)] *)
Definition move_to_end_first (k : K) (d : list (K * V))
  : result (list (K * V)) :=
  match od_get k d with
  | Some v => Return ((k, v) :: od_remove k d)
  | None => Raise KeyError
  end.

Definition keys (d : list (K * V)) : list K := d.*1.
End OrderedDict.

(** ** Plugin classes and instances *)

(** The class attributes the module's logic reads. *)
Record PluginClass : Type := {
  __name__ : string;
  _plugin_type : option string;
  _suffix_re : option string
}.

(** What [__init__] asks of [self.parent]: [hasattr(self.parent, 'cam')]. *)
Record Parent : Type := { has_cam : bool }.

Record Plugin : Type := {
  cls : PluginClass;
  prefix : string;
  parent : option Parent;
  (** [None] while the type has not been checked, [Some false] once it is
      confirmed, [Some true] once it is known to be wrong. *)
  _misconfigured : option bool;
  stage_sigs : list (string * pyval)
}.

(** The calls [PluginBase] makes to its collaborators. *)
Inductive call : Type :=
| call_super_stage
| call_wait_for_connection
| call_plugin_type_get.

Inductive level : Type := WARNING | DEBUG.

(** A record handed to [logger]: level and the four arguments of the format
    (prefix, class name, declared type, reported type). *)
Record log_record : Type := {
  lvl : level;
  log_prefix : string;
  log_class : string;
  log_expected : string;
  log_reported : string
}.

(** The plugin together with the collaborators as they answer now.  The
    [remote_*] fields are not touched by the plugin; the events of
    [run_event] set them between calls, and [remote_plugin_type_then] says
    what other threads make of the type-report point while [stage] is
    between its two reads of it. *)
Record World : Type := {
  self : Plugin;
  (** What [self.plugin_type.get()] does. *)
  remote_plugin_type : result string;
  (** What [self.plugin_type.wait_for_connection()] does. *)
  remote_wait : result unit;
  (** What [super().stage()] does, its return value dropped as in [stage]. *)
  remote_super_stage : result unit;
  (** What [self.plugin_type.get()] does once [stage] has run its type
      check, when the point has changed by then; [None] when it has not. *)
  remote_plugin_type_then : option (result string);
  calls : list call;
  log : list log_record
}.

Definition with_self (f : Plugin → Plugin) (w : World) : World :=
  {| self := f (self w);
     remote_plugin_type := remote_plugin_type w;
     remote_wait := remote_wait w;
     remote_super_stage := remote_super_stage w;
     remote_plugin_type_then := remote_plugin_type_then w;
     calls := calls w;
     log := log w |}.

Definition with_call (c : call) (w : World) : World :=
  {| self := self w;
     remote_plugin_type := remote_plugin_type w;
     remote_wait := remote_wait w;
     remote_super_stage := remote_super_stage w;
     remote_plugin_type_then := remote_plugin_type_then w;
     calls := calls w ++ [c];
     log := log w |}.

Definition with_log (r : log_record) (w : World) : World :=
  {| self := self w;
     remote_plugin_type := remote_plugin_type w;
     remote_wait := remote_wait w;
     remote_super_stage := remote_super_stage w;
     remote_plugin_type_then := remote_plugin_type_then w;
     calls := calls w;
     log := log w ++ [r] |}.

Definition with_remote (super wait : result unit) (get : result string)
    (w : World) : World :=
  {| self := self w;
     remote_plugin_type := get;
     remote_wait := wait;
     remote_super_stage := super;
     remote_plugin_type_then := remote_plugin_type_then w;
     calls := calls w;
     log := log w |}.

Definition set_misconfigured (m : option bool) (p : Plugin) : Plugin :=
  {| cls := cls p; prefix := prefix p; parent := parent p;
     _misconfigured := m; stage_sigs := stage_sigs p |}.

Definition set_stage_sigs (d : list (string * pyval)) (p : Plugin) : Plugin :=
  {| cls := cls p; prefix := prefix p; parent := parent p;
     _misconfigured := _misconfigured p; stage_sigs := d |}.

(** Truth value of [self._misconfigured] in an [if]. *)
Definition truthy (m : option bool) : bool :=
  match m with
  | Some true => true
  | _ => false
  end.

Definition is_DestroyedError (e : exn) : bool :=
  match e with
  | DestroyedError => true
  | _ => false
  end.

Definition is_None {A} (o : option A) : bool :=
  match o with
  | None => true
  | Some _ => false
  end.

(** The world once the other threads have run: the type-report point
    answers what they made of it. *)
Definition others_ran (w : World) : World :=
  match remote_plugin_type_then w with
  | Some get =>
      {| self := self w;
         remote_plugin_type := get;
         remote_wait := remote_wait w;
         remote_super_stage := remote_super_stage w;
         remote_plugin_type_then := None;
         calls := calls w;
         log := log w |}
  | None => w
  end.

Module PluginBase.

Definition super_stage : Py World unit :=
  modify (with_call call_super_stage);; outcome remote_super_stage.

Definition plugin_type_wait_for_connection : Py World unit :=
  modify (with_call call_wait_for_connection);; outcome remote_wait.

Definition plugin_type_get : Py World string :=
  modify (with_call call_plugin_type_get);; outcome remote_plugin_type.

(** [self.stage_sigs['enable'] = 1] *)
Definition enable_on_stage : Py World unit :=
  modify (with_self (fun p =>
    set_stage_sigs (od_setitem "enable" (VInt 1) (stage_sigs p)) p)).

Definition disable_on_stage : Py World unit :=
  modify (with_self (fun p =>
    set_stage_sigs (od_setitem "enable" (VInt 0) (stage_sigs p)) p)).

(** [self.stage_sigs['blocking_callbacks'] = 'Yes'] *)
Definition ensure_blocking : Py World unit :=
  modify (with_self (fun p =>
    set_stage_sigs
      (od_setitem "blocking_callbacks" (VStr "Yes") (stage_sigs p)) p)).

Definition ensure_nonblocking : Py World unit :=
  modify (with_self (fun p =>
    set_stage_sigs
      (od_setitem "blocking_callbacks" (VStr "No") (stage_sigs p)) p)).

(** [PluginBase.__init__], run on the object as [super().__init__] left
    it: whatever [stage_sigs] the base classes built is kept. *)
Definition __init__ : Py World unit :=
  me ← gets self;
  (if is_None (_plugin_type (cls me))
   then modify (with_self (set_misconfigured (Some false)))
   else modify (with_self (set_misconfigured None)));;
  enable_on_stage;;
  me ← gets self;
  sigs ← outcome (fun _ => move_to_end_first "enable" (stage_sigs me));
  modify (with_self (set_stage_sigs sigs));;
  ensure_blocking;;
  me ← gets self;
  match parent me with
  | Some par =>
      if has_cam par
      then modify (with_self (fun p =>
             set_stage_sigs
               (od_update (stage_sigs p)
                  [("parent.cam.array_callbacks", VInt 1)]) p))
      else mret tt
  | None => mret tt
  end.

(** The connection callback on [plugin_type]. *)
Definition _plugin_type_connected (connected : bool) : Py World unit :=
  me ← gets self;
  if negb connected || is_None (_plugin_type (cls me)) then mret tt
  else
    got ← try_except (v ← plugin_type_get; mret (Some v))
                     is_DestroyedError (mret None);
    match got with
    | None => mret tt
    | Some plugin_type =>
        match _plugin_type (cls me) with
        | None => raise TypeError
        | Some expected =>
            let bad := negb (startswith plugin_type expected) in
            modify (with_self (set_misconfigured (Some bad)));;
            modify (with_log
              {| lvl := if bad then WARNING else DEBUG;
                 log_prefix := prefix me;
                 log_class := __name__ (cls me);
                 log_expected := expected;
                 log_reported := plugin_type |})
        end
    end.

Section Stage.
(** [repr] of a string, as the [{!r}] fields of the message apply it. *)
Variable repr : string → string.

Definition repr_type (t : option string) : string :=
  match t with
  | Some s => repr s
  | None => "None"
  end.

Definition misconfiguration_message
    (pre cname : string) (expected : option string) (reported : string)
  : string :=
  "Plugin prefix " ++ repr pre ++ ": trying to use " ++ repr cname
  ++ " class (with plugin type=" ++ repr_type expected
  ++ ") but the plugin reports it is of type " ++ repr reported.

(** [stage] reads the type report in the check and once more for the
    message; what the point answers may have changed in between. *)
Definition stage : Py World unit :=
  super_stage;;
  me ← gets self;
  (if is_None (_misconfigured me)
   then plugin_type_wait_for_connection;; _plugin_type_connected true;;
        modify others_ran
   else mret tt);;
  me ← gets self;
  if truthy (_misconfigured me)
  then
    reported ← plugin_type_get;
    raise (PluginMisconfigurationError
             (misconfiguration_message (prefix me) (__name__ (cls me))
                (_plugin_type (cls me)) reported))
  else mret tt.
End Stage.

End PluginBase.

(** What happens to a plugin over time: the signal layer delivers a
    connection notification, or the plugin is staged; each finds the
    collaborators in the condition the event names. *)
Inductive event : Type :=
| Connection (connected : bool) (get : result string)
| Staging (super wait : result unit) (get : result string).

Definition run_event (repr : string → string) (w : World) (e : event)
  : World :=
  match e with
  | Connection connected get =>
      (PluginBase._plugin_type_connected connected
         (with_remote (remote_super_stage w) (remote_wait w) get w)).2
  | Staging super wait get =>
      (PluginBase.stage repr (with_remote super wait get w)).2
  end.

Definition run_events (repr : string → string) (w : World) (es : list event)
  : World :=
  foldl (run_event repr) w es.

(** Modelled from the spec: [Device.stage] of [ophyd/device.py], which is
    not part of this module, applies the directives of the staging set in
    insertion order.  The points staging writes, in the order it writes
    them. *)
Definition staging_order (p : Plugin) : list (string * pyval) :=
  stage_sigs p.

(** ** The upstream pipeline *)

(** What the root's port index hands out: a [PluginBase] instance, which has
    the [_asyn_pipeline] property, or anything else (the camera, [None]). *)
Inductive device : Type :=
| PluginDev (name : string)
| OtherDev (name : string).

#[export] Instance device_eq_dec : EqDecision device.
Proof. solve_decision. Defined.

(** The device tree as the pipeline code sees it.  Plugins go by their
    names. *)
Record Topology : Type := {
  (** [self.nd_array_port.get()] of the plugin named. *)
  nd_array_port_get : string → result string;
  (** [self.ad_root.get_plugin_by_asyn_port(port)]. *)
  get_plugin_by_asyn_port : string → result device;
  (** [super().read_configuration()] of a plugin, [read_configuration()]
      of any other device. *)
  own_read_configuration : device → result (list (string * pyval));
  (** The same for [describe_configuration]. *)
  own_describe_configuration : device → result (list (string * pyval))
}.

Definition is_AttributeError (e : exn) : bool :=
  match e with
  | AttributeError _ => true
  | _ => false
  end.

Module Pipeline.

(** The [source_plugin] property. *)
Definition source_plugin (t : Topology) (self : string) : result device :=
  match nd_array_port_get t self with
  | Raise e => Raise e
  | Return source_port => get_plugin_by_asyn_port t source_port
  end.

(** The [_asyn_pipeline] property.  [fuel] bounds the depth of the
    recursion, [None] says it was not enough.  [hasattr] evaluates the
    property of [parent]: an [AttributeError] there makes it answer
    [False], any other exception passes through, and on [True] the
    property is evaluated once more for the sum. *)
Fixpoint _asyn_pipeline (fuel : nat) (t : Topology) (self : string)
  : option (result (list device)) :=
  match fuel with
  | O => None
  | S fuel' =>
      match nd_array_port_get t self with
      | Raise e => Some (Raise e)
      | Return port =>
          match get_plugin_by_asyn_port t port with
          | Raise e => Some (Raise e)
          | Return (OtherDev n) =>
              Some (Return [OtherDev n; PluginDev self])
          | Return (PluginDev q) =>
              match _asyn_pipeline fuel' t q with
              | None => None
              | Some (Raise e) =>
                  if is_AttributeError e
                  then Some (Return [PluginDev q; PluginDev self])
                  else Some (Raise e)
              | Some (Return _) =>
                  match _asyn_pipeline fuel' t q with
                  | None => None
                  | Some (Raise e) => Some (Raise e)
                  | Some (Return chain) =>
                      Some (Return (chain ++ [PluginDev self]))
                  end
              end
          end
      end
  end.

Section Configuration.
(** [read_configuration] and [describe_configuration] have the same
    body over their own [super()] method. *)
Variable own : Topology → device → result (list (string * pyval)).

Fixpoint configuration (fuel : nat) (t : Topology) (self : string)
  : option (result (list (string * pyval))) :=
  match fuel with
  | O => None
  | S fuel' =>
      match own t (PluginDev self) with
      | Raise e => Some (Raise e)
      | Return ret =>
          match source_plugin t self with
          | Raise e => Some (Raise e)
          | Return (OtherDev n) =>
              match own t (OtherDev n) with
              | Raise e => Some (Raise e)
              | Return up => Some (Return (od_update ret up))
              end
          | Return (PluginDev q) =>
              match configuration fuel' t q with
              | None => None
              | Some (Raise e) => Some (Raise e)
              | Some (Return up) => Some (Return (od_update ret up))
              end
          end
      end
  end.
End Configuration.

Definition read_configuration := configuration own_read_configuration.
Definition describe_configuration :=
  configuration own_describe_configuration.

End Pipeline.

(** The chain as the specification words it: the plugin fed by the root
    source has the chain [[source; plugin]], a plugin fed by another plugin
    has that plugin's chain with itself appended. *)
Inductive resolve_chain (t : Topology) : string → list device → Prop :=
| resolve_source self port n :
    nd_array_port_get t self = Return port →
    get_plugin_by_asyn_port t port = Return (OtherDev n) →
    resolve_chain t self [OtherDev n; PluginDev self]
| resolve_plugin self port q chain :
    nd_array_port_get t self = Return port →
    get_plugin_by_asyn_port t port = Return (PluginDev q) →
    resolve_chain t q chain →
    resolve_chain t self (chain ++ [PluginDev self]).

(** The merge as the specification words it: ancestors first, so that the
    descendant's value wins on a colliding key. *)
Definition merged_configuration_spec (upstream own : list (string * pyval))
  : list (string * pyval) :=
  od_update upstream own.

(** ** Regular expressions of the [_suffix_re] attributes

    The patterns of the module are literal characters and [\d].  Patterns
    with other syntax are outside the model; [\d] is taken over ASCII. *)
Inductive re_atom : Type :=
| re_char (c : ascii)
| re_digit.

Definition backslash : ascii := ascii_of_nat 92.

Definition is_meta (c : ascii) : bool :=
  existsb (Ascii.eqb c)
    (backslash :: list_ascii_of_string ".^$*+?{}[]|()").

Fixpoint re_compile (p : string) : option (list re_atom) :=
  match p with
  | EmptyString => Some []
  | String c r =>
      if Ascii.eqb c backslash then
        match r with
        | String d r' =>
            if Ascii.eqb d "d"%char
            then option_map (cons re_digit) (re_compile r')
            else None
        | EmptyString => None
        end
      else if is_meta c then None
      else option_map (cons (re_char c)) (re_compile r)
  end.

Definition is_digit (c : ascii) : bool :=
  (48 <=? nat_of_ascii c)%nat && (nat_of_ascii c <=? 57)%nat.

Definition atom_matches (a : re_atom) (c : ascii) : bool :=
  match a with
  | re_char c' => Ascii.eqb c' c
  | re_digit => is_digit c
  end.

(** The pattern matches at the start of [s]. *)
Fixpoint match_here (p : list re_atom) (s : string) : bool :=
  match p with
  | [] => true
  | a :: p' =>
      match s with
      | EmptyString => false
      | String c s' => atom_matches a c && match_here p' s'
      end
  end.

(** The pattern matches somewhere in [s]. *)
Fixpoint match_anywhere (p : list re_atom) (s : string) : bool :=
  match_here p s ||
  match s with
  | EmptyString => false
  | String _ s' => match_anywhere p s'
  end.

(** [re.search(pattern, s)] as a truth value: a match object or [None].
    A pattern that is [None] is a [TypeError]. *)
Definition re_search (pattern : option string) (s : string) : result bool :=
  match pattern with
  | None => Raise TypeError
  | Some p =>
      match re_compile p with
      | Some atoms => Return (match_anywhere atoms s)
      | None => Raise (External "re: pattern outside the modelled syntax")
      end
  end.

(** ** The plugin registry and discovery *)

(** Whether the pattern of a class is made of literal characters and [\d]
    only, as the patterns of the module's classes are. *)
Definition plain_pattern (suffix_re : option string) : bool :=
  match suffix_re with
  | Some p => bool_decide (is_Some (re_compile p))
  | None => false
  end.

(** The module's globals and channel access. *)
Record Process : Type := {
  (** The dict [_plugin_class]; a class that declares no type registers
      under the key [None]. *)
  _plugin_class : list (option string * PluginClass);
  (** [cl.caget(pvname, timeout=timeout)]: [None] when it timed out. *)
  caget : string → Q → option string;
  (** The reads channel access was asked for, oldest first. *)
  caget_calls : list (string * Q)
}.

Definition with_plugin_class
    (f : list (option string * PluginClass) →
         list (option string * PluginClass)) (s : Process) : Process :=
  {| _plugin_class := f (_plugin_class s);
     caget := caget s;
     caget_calls := caget_calls s |}.

Definition with_caget_call (pv : string) (timeout : Q) (s : Process)
  : Process :=
  {| _plugin_class := _plugin_class s;
     caget := caget s;
     caget_calls := caget_calls s ++ [(pv, timeout)] |}.

Definition register_plugin (c : PluginClass) : Py Process PluginClass :=
  modify (with_plugin_class (od_setitem (_plugin_type c) c));;
  mret c.

(** The loop of [plugin_from_pvname] over [_plugin_class.items()]. *)
Fixpoint plugin_from_pvname_items
    (items : list (option string * PluginClass)) (pv : string)
  : result (option PluginClass) :=
  match items with
  | [] => Return None
  | (type_, c) :: rest =>
      match re_search (_suffix_re c) pv with
      | Raise e => Raise e
      | Return true => Return (Some c)
      | Return false => plugin_from_pvname_items rest pv
      end
  end.

Definition plugin_from_pvname (pv : string)
  : Py Process (option PluginClass) :=
  items ← gets _plugin_class;
  outcome (fun _ => plugin_from_pvname_items items pv).

Definition cl_caget (pv : string) (timeout : Q) : Py Process (option string) :=
  modify (with_caget_call pv timeout);;
  gets (fun s => caget s pv timeout).

Definition default_timeout : Q := 2.0.

Definition timed_out_message : string :=
  "Unable to determine plugin type (caget timed out)".

Definition not_registered_message (type_ : string) : string :=
  "Unable to determine plugin type (PluginType=" ++ type_ ++ ")".

(** [get_areadetector_plugin_class(prefix, timeout=2.0)]; the argument is
    [None] when the caller leaves [timeout] out. *)
Definition get_areadetector_plugin_class
    (prefix : string) (timeout : option Q) : Py Process PluginClass :=
  let timeout := default default_timeout timeout in
  found ← plugin_from_pvname prefix;
  match found with
  | Some c => mret c
  | None =>
      let type_rbv := prefix +:+ "PluginType_RBV" in
      type_ ← cl_caget type_rbv timeout;
      match type_ with
      | None => raise (ValueError timed_out_message)
      | Some type_ =>
          let type_ := split_space_0 type_ in
          registry ← gets _plugin_class;
          match od_get (Some type_) registry with
          | Some c => mret c
          | None => raise (ValueError (not_registered_message type_))
          end
      end
  end.

(** The classes the module registers, in the order of their definitions. *)
Definition plugin (name type_ suffix : string) : PluginClass :=
  {| __name__ := name; _plugin_type := Some type_; _suffix_re := Some suffix |}.

Definition ImagePlugin := plugin "ImagePlugin" "NDPluginStdArrays" "image\d:".
Definition StatsPlugin := plugin "StatsPlugin" "NDPluginStats" "Stats\d:".
Definition ColorConvPlugin :=
  plugin "ColorConvPlugin" "NDPluginColorConvert" "CC\d:".
Definition ProcessPlugin := plugin "ProcessPlugin" "NDPluginProcess" "Proc\d:".
Definition OverlayPlugin := plugin "OverlayPlugin" "NDPluginOverlay" "Over\d:".
Definition ROIPlugin := plugin "ROIPlugin" "NDPluginROI" "ROI\d:".
Definition TransformPlugin :=
  plugin "TransformPlugin" "NDPluginTransform" "Trans\d:".
Definition NetCDFPlugin := plugin "NetCDFPlugin" "NDFileNetCDF" "netCDF\d:".
Definition TIFFPlugin := plugin "TIFFPlugin" "NDFileTIFF" "TIFF\d:".
Definition JPEGPlugin := plugin "JPEGPlugin" "NDFileJPEG" "JPEG\d:".
Definition NexusPlugin := plugin "NexusPlugin" "NDPluginNexus" "Nexus\d:".
Definition HDF5Plugin := plugin "HDF5Plugin" "NDFileHDF5" "HDF\d:".
Definition MagickPlugin := plugin "MagickPlugin" "NDFileMagick" "Magick\d:".

(** [PluginBase] and [FilePlugin] are not registered. *)
Definition PluginBase_class : PluginClass :=
  {| __name__ := "PluginBase"; _plugin_type := None; _suffix_re := None |}.
Definition FilePlugin : PluginClass :=
  {| __name__ := "FilePlugin"; _plugin_type := Some "NDPluginFile";
     _suffix_re := None |}.

Definition registered_classes : list PluginClass :=
  [ImagePlugin; StatsPlugin; ColorConvPlugin; ProcessPlugin; OverlayPlugin;
   ROIPlugin; TransformPlugin; NetCDFPlugin; TIFFPlugin; JPEGPlugin;
   NexusPlugin; HDF5Plugin; MagickPlugin].

(** The process after the module is imported. *)
Definition module_loaded (ca : string → Q → option string) : Process :=
  foldl (fun s c => (register_plugin c s).2)
        {| _plugin_class := []; caget := ca; caget_calls := [] |}
        registered_classes.

(** ** The region-of-interest setter *)

(** A status object: the completion of one write, or the conjunction
    [operator.and_] builds of two. *)
Inductive Status : Type :=
| SetStatus (point : string) (value : Z) (done_ok : bool)
| AndStatus (left right : Status).

Fixpoint success (st : Status) : bool :=
  match st with
  | SetStatus _ _ ok => ok
  | AndStatus l r => success l && success r
  end.

(** The remote points of one ROI plugin. *)
Record Remote : Type := {
  (** Whether the server takes a value written to a point. *)
  accepts : string → Z → bool;
  points : gmap string Z;
  (** The writes issued, oldest first. *)
  writes : list (string * Z)
}.

(** Modelled from the spec: the remote point proxy of [ophyd/signal.py],
    which is not part of this module.  [set] issues the write; a write the
    server takes changes the point and completes with success, one it
    rejects leaves the point alone and completes with failure. *)
Definition signal_set (point : string) (value : Z) : Py Remote Status :=
  fun r =>
    let ok := accepts r point value in
    (Return (SetStatus point value ok),
     {| accepts := accepts r;
        points := if ok then <[point := value]> (points r) else points r;
        writes := writes r ++ [(point, value)] |}).

(** Whether a name has a dot, and what stands after its last dot. *)
Fixpoint has_dot (s : string) : bool :=
  match s with
  | EmptyString => false
  | String c r => Ascii.eqb c "."%char || has_dot r
  end.

Fixpoint last_component (s : string) : string :=
  match s with
  | EmptyString => EmptyString
  | String c r =>
      if has_dot r then last_component r
      else if Ascii.eqb c "."%char then r
      else String c r
  end.

Module ROI.

(** [getattr(self, name)] for the dotted names [set] builds from an axis
    that has no dot itself: the components of [min_xyz] and [size].  The
    lookup walks the name component by component, so what is missing is
    the last component, and that is what the [AttributeError] names.  An
    axis with dots of its own would be walked further, through attributes
    this table does not hold. *)
Definition getattr (name : string) : result string :=
  if bool_decide (name = "min_xyz.min_x") then Return "MinX"
  else if bool_decide (name = "min_xyz.min_y") then Return "MinY"
  else if bool_decide (name = "min_xyz.min_z") then Return "MinZ"
  else if bool_decide (name = "size.x") then Return "SizeX"
  else if bool_decide (name = "size.y") then Return "SizeY"
  else if bool_decide (name = "size.z") then Return "SizeZ"
  else Raise (AttributeError (last_component name)).

(** The [for] loop of [set] over [region.items()]. *)
Fixpoint set_items (items : list (string * (Z * Z))) (status : list Status)
  : Py Remote (list Status) :=
  match items with
  | [] => mret status
  | (direction, value) :: rest =>
      sig ← outcome (fun _ => getattr ("min_xyz.min_" +:+ direction));
      s1 ← signal_set sig value.1;
      sig ← outcome (fun _ => getattr ("size." +:+ direction));
      s2 ← signal_set sig value.2;
      set_items rest (status ++ [s1; s2])
  end.

(** [functools.reduce(operator.and_, status)] *)
Definition reduce_and (status : list Status) : result Status :=
  match status with
  | [] => Raise TypeError
  | s :: rest => Return (foldl AndStatus s rest)
  end.

(** [ROIPlugin.set(region)].  The local [status] is bound only in the
    branch [region is not None]. *)
Definition set (region : option (list (string * (Z * Z))))
  : Py Remote Status :=
  status ← match region with
           | Some items => st ← set_items items []; mret (Some st)
           | None => mret None
           end;
  match status with
  | None => raise (UnboundLocalError "status")
  | Some status => outcome (fun _ => reduce_and status)
  end.

End ROI.

(** The minimum point and the size point of an axis. *)
Definition axis_points (direction : string) : option (string * string) :=
  if bool_decide (direction = "x") then Some ("MinX", "SizeX")
  else if bool_decide (direction = "y") then Some ("MinY", "SizeY")
  else if bool_decide (direction = "z") then Some ("MinZ", "SizeZ")
  else None.

(** The writes the setter owes for one entry of the region: the minimum
    of the axis, then its size. *)
Definition axis_writes (item : string * (Z * Z)) : list (string * Z) :=
  match axis_points item.1 with
  | Some (lo, size) => [(lo, item.2.1); (size, item.2.2)]
  | None => []
  end.

Definition region_writes (items : list (string * (Z * Z)))
  : list (string * Z) :=
  flat_map axis_writes items.

(** ** Reading aids for the statements *)

(** The state a report moves the plugin to: confirmed ([Some false]) when
    the report starts with the declared type, bad ([Some true]) otherwise. *)
Definition verdict (expected reported : string) : option bool :=
  Some (negb (startswith reported expected)).

(** A plugin object before [PluginBase.__init__] runs on it, with the
    staging set [sigs] its base classes left, in a world whose collaborators
    answer without error and report [get]. *)
Definition allocated (c : PluginClass) (pre : string) (par : option Parent)
    (sigs : list (string * pyval)) (get : result string) : World :=
  {| self := {| cls := c; prefix := pre; parent := par;
                _misconfigured := None; stage_sigs := sigs |};
     remote_plugin_type := get;
     remote_wait := Return tt;
     remote_super_stage := Return tt;
     remote_plugin_type_then := None;
     calls := [];
     log := [] |}.

(** The same plugin constructed. *)
Definition constructed (c : PluginClass) (pre : string) (par : option Parent)
    (sigs : list (string * pyval)) (get : result string) : World :=
  (PluginBase.__init__ (allocated c pre par sigs get)).2.

(** A world in which the type-report point changes its answer between the
    two reads of [stage]. *)
Definition others_change (get : option (result string)) (w : World) : World :=
  {| self := self w;
     remote_plugin_type := remote_plugin_type w;
     remote_wait := remote_wait w;
     remote_super_stage := remote_super_stage w;
     remote_plugin_type_then := get;
     calls := calls w;
     log := log w |}.

(** [repr] of a string without quotes, backslashes or control characters. *)
Definition quote (s : string) : string := "'" +:+ s +:+ "'".

(** The merged configuration of a chain given root first: the source's own
    configuration, then each plugin down the chain updates its own
    configuration with what was merged so far. *)
Definition chain_configuration (cfg : device → list (string * pyval))
    (chain : list device) : list (string * pyval) :=
  match chain with
  | [] => []
  | source :: plugins =>
      foldl (fun merged d => od_update (cfg d) merged) (cfg source) plugins
  end.

(** A camera on port ["CAM"] feeding the ROI plugin ["roi1"] (port
    ["ROI1"]), which feeds the statistics plugin ["stats1"].  Both
    configuration queries answer with the same fields. *)
Definition example_configuration (d : device) : list (string * pyval) :=
  match d with
  | OtherDev _ =>
      [("det_cam_acquire_time", VInt 1); ("shared", VStr "cam")]
  | PluginDev n =>
      if bool_decide (n = "roi1")
      then [("det_roi1_enable", VStr "Enable"); ("shared", VStr "roi1")]
      else [("det_stats1_enable", VStr "Enable")]
  end.

Definition example_topology : Topology :=
  {| nd_array_port_get := fun self =>
       if bool_decide (self = "roi1") then Return "CAM"
       else if bool_decide (self = "stats1") then Return "ROI1"
       else Raise (AttributeError "nd_array_port");
     get_plugin_by_asyn_port := fun port =>
       if bool_decide (port = "CAM") then Return (OtherDev "cam")
       else if bool_decide (port = "ROI1") then Return (PluginDev "roi1")
       else Return (OtherDev "None");
     own_read_configuration := fun d => Return (example_configuration d);
     own_describe_configuration := fun d => Return (example_configuration d) |}.

(** The remote after a sequence of writes, and the completion of each. *)
Definition write_all (r : Remote) (ws : list (string * Z)) : Remote :=
  foldl (fun r pv => (signal_set pv.1 pv.2 r).2) r ws.

Definition completion (r : Remote) (pv : string * Z) : Status :=
  SetStatus pv.1 pv.2 (accepts r pv.1 pv.2).

(** The axis a point of [min_xyz] or [size] belongs to. *)
Definition axis_of_point (p : string) : option string :=
  if bool_decide (p = "MinX") || bool_decide (p = "SizeX") then Some "x"
  else if bool_decide (p = "MinY") || bool_decide (p = "SizeY") then Some "y"
  else if bool_decide (p = "MinZ") || bool_decide (p = "SizeZ") then Some "z"
  else None.

(** A server that takes every value but a size on the x axis. *)
Definition rejects_size_x : Remote :=
  {| accepts := fun p _ => negb (bool_decide (p = "SizeX"));
     points := ∅;
     writes := [] |}.

(** ** The monad, unfolded *)

Ltac py_unfold :=
  unfold mbind, mret, Py_bind, Py_ret, bind, ret, raise, gets, modify,
    outcome, try_except in *.

Ltac py_step := py_unfold; cbn [fst snd] in *.

(** ** Array size, pixel count and the image *)

(** [l[0]] *)
Definition py_first (l : list Z) : result Z :=
  match l with
  | [] => Raise (External "IndexError")
  | x :: _ => Return x
  end.

(** [l[-1]] *)
Definition py_last (l : list Z) : result Z :=
  match last l with
  | None => Raise (External "IndexError")
  | Some x => Return x
  end.

(** [l[1:stop]]: a negative [stop] counts from the end, and either end of
    the slice is cut to the list. *)
Definition slice_from_1 (l : list Z) (stop : Z) : list Z :=
  let n := Z.of_nat (length l) in
  let stop := if (stop <? 0)%Z then Z.max (stop + n) 0 else Z.min stop n in
  drop 1 (take (Z.to_nat stop) l).

(** The reads [array_pixels] and [image] make: [array_size.get()],
    [ndimensions.get()] and [array_data.get(count=count)]. *)
Inductive array_read : Type :=
| read_array_size
| read_ndimensions
| read_array_data (count : Z).

(** The three signals as they answer now, and the reads made so far. *)
Record ArrayWorld : Type := {
  array_size_get : result (list Z);
  ndimensions_get : result Z;
  array_data_get : Z → result (list Z);
  array_reads : list array_read
}.

Definition with_array_read (r : array_read) (w : ArrayWorld) : ArrayWorld :=
  {| array_size_get := array_size_get w;
     ndimensions_get := ndimensions_get w;
     array_data_get := array_data_get w;
     array_reads := array_reads w ++ [r] |}.

Definition invalid_image : exn :=
  External "RuntimeError: Invalid image; ensure array_callbacks are on".

Module Array.

Definition array_size : Py ArrayWorld (list Z) :=
  modify (with_array_read read_array_size);; outcome array_size_get.

Definition ndimensions : Py ArrayWorld Z :=
  modify (with_array_read read_ndimensions);; outcome ndimensions_get.

Definition array_data (count : Z) : Py ArrayWorld (list Z) :=
  modify (with_array_read (read_array_data count));;
  outcome (fun w => array_data_get w count).

(** The [array_pixels] property of [PluginBase]. *)
Definition array_pixels : Py ArrayWorld Z :=
  size ← array_size;
  dimensions ← ndimensions;
  if (dimensions =? 0)%Z then mret 0%Z
  else
    pixels ← outcome (fun _ => py_first size);
    mret (foldl Z.mul pixels (slice_from_1 size dimensions)).

Section Image.
(** [np.array(image).reshape(shape)], which numpy answers. *)
Variable ndarray : Type.
Variable reshape : list Z → list Z → result ndarray.

(** The [image] property of [ImagePlugin]. *)
Definition image : Py ArrayWorld ndarray :=
  size ← array_size;
  if bool_decide (size = [0; 0; 0]%Z) then raise invalid_image
  else
    final ← outcome (fun _ => py_last size);
    let size := if (final =? 0)%Z then removelast size else size in
    pixel_count ← array_pixels;
    data ← array_data pixel_count;
    outcome (fun _ => reshape data size).
End Image.

End Array.

(** The product of a list of sizes. *)
Definition product (l : list Z) : Z := foldr Z.mul 1%Z l.

(** ** Warming up the HDF5 plugin *)

(** What [warmup] does to the outside: writes through [set_and_wait],
    reads, and sleeps. *)
Inductive io : Type :=
| io_set (signal : string) (value : pyval)
| io_get (signal : string)
| io_sleep (seconds : Q).

(** The values the signals hold, the writes that fail, and what was done. *)
Record Ioc : Type := {
  values : string → pyval;
  set_fails : string → pyval → option exn;
  trace : list io
}.

Definition with_io (e : io) (s : Ioc) : Ioc :=
  {| values := values s; set_fails := set_fails s; trace := trace s ++ [e] |}.

Definition with_value (signal : string) (v : pyval) (s : Ioc) : Ioc :=
  {| values := fun x => if bool_decide (x = signal) then v else values s x;
     set_fails := set_fails s;
     trace := trace s |}.

(** Modelled from the spec: [set_and_wait] of [ophyd/utils], which is not
    part of this module, writes the value and returns once the point reads
    back as written; when it does not, it raises and the point is taken to
    hold what it held. *)
Definition set_and_wait (signal : string) (v : pyval) : Py Ioc unit :=
  modify (with_io (io_set signal v));;
  failure ← gets (fun s => set_fails s signal v);
  match failure with
  | Some e => raise e
  | None => modify (with_value signal v)
  end.

Definition signal_get (signal : string) : Py Ioc pyval :=
  modify (with_io (io_get signal));;
  gets (fun s => values s signal).

Definition sleep (seconds : Q) : Py Ioc unit :=
  modify (with_io (io_sleep seconds)).

Module HDF5.

(** The directives of [warmup], the signals by name. *)
Definition sigs : list (string * pyval) :=
  [("parent.cam.array_callbacks", VInt 1);
   ("parent.cam.image_mode", VStr "Single");
   ("parent.cam.trigger_mode", VStr "Internal");
   ("parent.cam.acquire_time", VInt 1);
   ("parent.cam.acquire_period", VInt 1);
   ("parent.cam.acquire", VInt 1)].

(** [{sig: sig.get() for sig in sigs}] *)
Fixpoint read_all (signals : list string) : Py Ioc (list (string * pyval)) :=
  match signals with
  | [] => mret []
  | sig :: rest =>
      v ← signal_get sig;
      vs ← read_all rest;
      mret ((sig, v) :: vs)
  end.

(** [for sig, val in items: ttime.sleep(0.1); set_and_wait(sig, val)] *)
Fixpoint write_each (items : list (string * pyval)) : Py Ioc unit :=
  match items with
  | [] => mret tt
  | (sig, val) :: rest =>
      sleep 0.1;;
      set_and_wait sig val;;
      write_each rest
  end.

Definition warmup : Py Ioc unit :=
  set_and_wait "enable" (VInt 1);;
  original_vals ← read_all (keys sigs);
  write_each sigs;;
  sleep 2;;
  write_each (reverse original_vals).

End HDF5.

(** ** Registration *)

(** The registry after the classes of a list have been registered in
    turn. *)
Definition register_all (cs : list PluginClass) (s : Process) : Process :=
  foldl (fun s c => (register_plugin c s).2) s cs.

(** Every entry stands under the declared type of its class. *)
Definition keyed_by_type (reg : list (option string * PluginClass)) : Prop :=
  Forall (fun kc => kc.1 = _plugin_type kc.2) reg.

(** A plugin whose sizes and number of dimensions read as given and whose
    array data is [data], cut to the count asked for. *)
Definition array_world (size : list Z) (d : Z) (data : list Z) : ArrayWorld :=
  {| array_size_get := Return size;
     ndimensions_get := Return d;
     array_data_get := fun count => Return (take (Z.to_nat count) data);
     array_reads := [] |}.

(** The shape [image] reshapes to: the sizes without a last size of 0. *)
Definition image_shape (size : list Z) : list Z :=
  match last size with
  | Some 0%Z => removelast size
  | _ => size
  end.

(** The value of a field along a chain given root first: that of the
    device nearest the root that has the field. *)
Definition upstream_first (k : string) (cfg : device → list (string * pyval))
    (chain : list device) : option pyval :=
  foldr (fun d found => match od_get k (cfg d) with
                        | Some v => Some v
                        | None => found
                        end) None chain.

(** Two plugins wired to each other: ["a"] reads from the port of ["b"]
    and ["b"] from the port of ["a"]. *)
Definition looping_topology : Topology :=
  {| nd_array_port_get := fun self =>
       if bool_decide (self = "a") then Return "B" else Return "A";
     get_plugin_by_asyn_port := fun port =>
       if bool_decide (port = "A") then Return (PluginDev "a")
       else Return (PluginDev "b");
     own_read_configuration := fun d => Return [];
     own_describe_configuration := fun d => Return [] |}.

(** The signals after the writes of a list have all been taken, and what
    the loop of [warmup] leaves in the trace for them. *)
Definition written (items : list (string * pyval)) (s : Ioc) : Ioc :=
  foldl (fun s item => with_value item.1 item.2 s) s items.

Definition write_trace (items : list (string * pyval)) : list io :=
  flat_map (fun item => [io_sleep 0.1; io_set item.1 item.2]) items.

(** An IOC on which every write succeeds, and one that rejects the
    trigger mode. *)
Definition quiet_ioc (v : string → pyval) : Ioc :=
  {| values := v; set_fails := fun _ _ => None; trace := [] |}.

Definition no_trigger_mode_ioc (v : string → pyval) : Ioc :=
  {| values := v;
     set_fails := fun sig _ =>
       if bool_decide (sig = "parent.cam.trigger_mode")
       then Some (External "TimeoutError") else None;
     trace := [] |}.

(** * Properties *)

(** ** Type validation *)

(** A connected notification that reads a report sets the state to the
    verdict on that report, logs it, and changes nothing else. *)
Lemma connected_reads w t s :
  _plugin_type (cls (self w)) = Some t →
  remote_plugin_type w = Return s →
  PluginBase._plugin_type_connected true w =
    (Return tt,
     with_log {| lvl := if negb (startswith s t) then WARNING else DEBUG;
                 log_prefix := prefix (self w);
                 log_class := __name__ (cls (self w));
                 log_expected := t;
                 log_reported := s |}
       (with_self (set_misconfigured (verdict t s))
          (with_call call_plugin_type_get w))).
Proof.
  intros Ht Hs.
  unfold PluginBase._plugin_type_connected, PluginBase.plugin_type_get.
  py_step. cbn. rewrite Ht. cbn. rewrite Hs. reflexivity.
Qed.

(** A notification that is not a connection, or one on a plugin without a
    declared type, returns at once. *)
Lemma connected_skips w connected :
  connected = false ∨ _plugin_type (cls (self w)) = None →
  PluginBase._plugin_type_connected connected w = (Return tt, w).
Proof.
  intros H. unfold PluginBase._plugin_type_connected. py_step. cbn.
  destruct H as [-> | ->]; [reflexivity |].
  destruct connected; reflexivity.
Qed.

(** A read that raises: [DestroyedError] is swallowed, anything else
    leaves the callback. *)
Lemma connected_raises w t e :
  _plugin_type (cls (self w)) = Some t →
  remote_plugin_type w = Raise e →
  PluginBase._plugin_type_connected true w =
    (if is_DestroyedError e then Return tt else Raise e,
     with_call call_plugin_type_get w).
Proof.
  intros Ht He.
  unfold PluginBase._plugin_type_connected, PluginBase.plugin_type_get.
  py_step. cbn. rewrite Ht. cbn. rewrite He.
  destruct (is_DestroyedError e); reflexivity.
Qed.

Lemma stage_known repr w b :
  _misconfigured (self w) = Some b →
  remote_super_stage w = Return tt →
  PluginBase.stage repr w =
    (if b then
       match remote_plugin_type w with
       | Return s =>
           Raise (PluginMisconfigurationError
                    (PluginBase.misconfiguration_message repr
                       (prefix (self w)) (__name__ (cls (self w)))
                       (_plugin_type (cls (self w))) s))
       | Raise e => Raise e
       end
     else Return tt,
     if b then with_call call_plugin_type_get (with_call call_super_stage w)
     else with_call call_super_stage w).
Proof.
  intros Hm Hs.
  unfold PluginBase.stage, PluginBase.super_stage, PluginBase.plugin_type_get.
  py_step. cbn. rewrite Hs, Hm. cbn. rewrite Hm.
  destruct b; cbn; [|reflexivity].
  destruct (remote_plugin_type w); reflexivity.
Qed.

Lemma stage_super_raises repr w e :
  remote_super_stage w = Raise e →
  PluginBase.stage repr w = (Raise e, with_call call_super_stage w).
Proof.
  intros Hs. unfold PluginBase.stage, PluginBase.super_stage.
  py_step. cbn. rewrite Hs. reflexivity.
Qed.

Lemma stage_wait_raises repr w e :
  _misconfigured (self w) = None →
  remote_super_stage w = Return tt →
  remote_wait w = Raise e →
  PluginBase.stage repr w =
    (Raise e, with_call call_wait_for_connection (with_call call_super_stage w)).
Proof.
  intros Hm Hs Hw.
  unfold PluginBase.stage, PluginBase.super_stage,
    PluginBase.plugin_type_wait_for_connection.
  py_step. cbn. rewrite Hs, Hm. cbn. rewrite Hw. reflexivity.
Qed.

(** Staging with the state unknown: after [super().stage()] and
    [wait_for_connection()] the callback runs on the world with those two
    calls recorded, and the state it leaves decides the rest. *)
Lemma others_ran_self w : self (others_ran w) = self w.
Proof. unfold others_ran. by destruct (remote_plugin_type_then w). Qed.

Lemma others_ran_calls w : calls (others_ran w) = calls w.
Proof. unfold others_ran. by destruct (remote_plugin_type_then w). Qed.

Lemma others_ran_log w : log (others_ran w) = log w.
Proof. unfold others_ran. by destruct (remote_plugin_type_then w). Qed.

(** What the type-report point answers to the read for the message, when
    it answered [get] so far. *)
Lemma others_ran_get w :
  remote_plugin_type (others_ran w) =
    default (remote_plugin_type w) (remote_plugin_type_then w).
Proof. unfold others_ran. by destruct (remote_plugin_type_then w). Qed.

Lemma stage_unknown repr w :
  _misconfigured (self w) = None →
  remote_super_stage w = Return tt →
  remote_wait w = Return tt →
  PluginBase.stage repr w =
    let w1 := with_call call_wait_for_connection
                (with_call call_super_stage w) in
    match PluginBase._plugin_type_connected true w1 with
    | (Return _, w2) =>
        if truthy (_misconfigured (self w2))
        then
          (match remote_plugin_type (others_ran w2) with
           | Return s =>
               Raise (PluginMisconfigurationError
                        (PluginBase.misconfiguration_message repr
                           (prefix (self w2)) (__name__ (cls (self w2)))
                           (_plugin_type (cls (self w2))) s))
           | Raise e => Raise e
           end, with_call call_plugin_type_get (others_ran w2))
        else (Return tt, others_ran w2)
    | (Raise e, w2) => (Raise e, w2)
    end.
Proof.
  intros Hm Hs Hw.
  unfold PluginBase.stage, PluginBase.super_stage,
    PluginBase.plugin_type_wait_for_connection, PluginBase.plugin_type_get.
  py_step. cbn -[others_ran]. rewrite Hs, Hm. cbn -[others_ran].
  rewrite Hw. cbn -[others_ran].
  destruct (PluginBase._plugin_type_connected true _) as [[[]|e] w2];
    cbn -[others_ran]; [|reflexivity].
  rewrite !others_ran_self.
  destruct (truthy _); [|reflexivity].
  destruct (remote_plugin_type (others_ran w2)); reflexivity.
Qed.

(** ** OrderedDict facts *)

Section OrderedDictFacts.
Context {K V : Type} `{EqDecision K}.
Implicit Types (d o : list (K * V)) (k : K) (v : V).

Lemma od_get_setitem_eq k v d : od_get k (od_setitem k v d) = Some v.
Proof.
  induction d as [|[k' v'] d IH]; cbn.
  - rewrite bool_decide_eq_true_2; done.
  - case_bool_decide; cbn.
    + rewrite bool_decide_eq_true_2; done.
    + rewrite bool_decide_eq_false_2; done.
Qed.

Lemma od_get_setitem_ne k k' v d :
  k ≠ k' → od_get k (od_setitem k' v d) = od_get k d.
Proof.
  intros Hne. induction d as [|[k0 v0] d IH]; cbn.
  - rewrite bool_decide_eq_false_2; done.
  - case_bool_decide as H0; cbn.
    + subst k0. rewrite !bool_decide_eq_false_2; done.
    + rewrite IH. done.
Qed.

Lemma od_setitem_cons_ne k k' v v' d :
  k' ≠ k → od_setitem k v ((k', v') :: d) = (k', v') :: od_setitem k v d.
Proof. intros Hne. cbn. rewrite bool_decide_eq_false_2; done. Qed.

Lemma keys_setitem k k' v d :
  k ∈ keys (od_setitem k' v d) → k = k' ∨ k ∈ keys d.
Proof.
  unfold keys. induction d as [|[k0 v0] d IH]; cbn.
  - intros ?%list_elem_of_singleton. by left.
  - case_bool_decide; cbn; rewrite !elem_of_cons; intuition auto.
Qed.

Lemma keys_setitem_old k k' v d :
  k ∈ keys d → k ∈ keys (od_setitem k' v d).
Proof.
  unfold keys. induction d as [|[k0 v0] d IH]; cbn.
  - by intros ?%elem_of_nil.
  - case_bool_decide; cbn; rewrite !elem_of_cons; intuition (subst; auto).
Qed.

Lemma keys_remove k d : k ∉ keys (od_remove k d).
Proof.
  unfold keys. induction d as [|[k0 v0] d IH]; cbn.
  - apply not_elem_of_nil.
  - case_bool_decide; cbn; [done|]. rewrite elem_of_cons.
    intuition congruence.
Qed.

Lemma od_get_remove_ne k k' d :
  k ≠ k' → od_get k (od_remove k' d) = od_get k d.
Proof.
  intros Hne. induction d as [|[k0 v0] d IH]; cbn; [done|].
  case_bool_decide as H0; cbn.
  - subst k0. rewrite bool_decide_eq_false_2; done.
  - by rewrite IH.
Qed.

Lemma keys_cons k v d : keys ((k, v) :: d) = k :: keys d.
Proof. reflexivity. Qed.

Lemma od_get_None k d : od_get k d = None ↔ k ∉ keys d.
Proof.
  unfold keys. induction d as [|[k0 v0] d IH]; cbn.
  - split; [intros _; apply not_elem_of_nil | done].
  - case_bool_decide; rewrite elem_of_cons; intuition congruence.
Qed.

Lemma od_get_Some_keys k v d : od_get k d = Some v → k ∈ keys d.
Proof.
  intros Hg. destruct (decide (k ∈ keys d)) as [|Hn]; [done|].
  apply od_get_None in Hn. congruence.
Qed.
End OrderedDictFacts.

(** ** Construction *)

Lemma init_runs w :
  PluginBase.__init__ w =
    (Return tt,
     with_self (fun p =>
       set_stage_sigs
         (let sigs :=
            od_setitem "blocking_callbacks" (VStr "Yes")
              (("enable", VInt 1) ::
               od_remove "enable"
                 (od_setitem "enable" (VInt 1) (stage_sigs (self w)))) in
          match parent (self w) with
          | Some par =>
              if has_cam par
              then od_setitem "parent.cam.array_callbacks" (VInt 1) sigs
              else sigs
          | None => sigs
          end)
         (set_misconfigured
            (if is_None (_plugin_type (cls (self w)))
             then Some false else None) p)) w).
Proof.
  unfold PluginBase.__init__, PluginBase.enable_on_stage,
    PluginBase.ensure_blocking, move_to_end_first.
  py_step. cbn -[od_get od_setitem od_remove od_update].
  destruct w as [[[nm [t|] re] pre par m sigs] g wt ss th cl lg];
    cbn -[od_get od_setitem od_remove od_update];
    rewrite od_get_setitem_eq; cbn -[od_get od_setitem od_remove od_update];
    destruct par as [[[]]|]; reflexivity.
Qed.

(** C7. After construction the staging directive set has ['enable'] (set
    to 1) as its first entry and nowhere else, whatever directives the base
    classes had inserted and in whatever order; ['blocking_callbacks'] is
    ['Yes'], and under a parent with a camera
    ['parent.cam.array_callbacks'] is 1.  Staging, which walks the set in
    insertion order, therefore writes ['enable'] before every other
    directive. *)
Theorem C7_enable_is_first_after_construction (w : World) :
  (PluginBase.__init__ w).1 = Return tt ∧
  (let p := self (PluginBase.__init__ w).2 in
   ∃ rest,
     stage_sigs p = ("enable", VInt 1) :: rest ∧
     staging_order p = ("enable", VInt 1) :: rest ∧
     ("enable" ∉ keys rest) ∧
     od_get "blocking_callbacks" rest = Some (VStr "Yes") ∧
     (∀ k, k ∈ keys (stage_sigs (self w)) → k ∈ keys (stage_sigs p)) ∧
     match parent (self w) with
     | Some par =>
         if has_cam par
         then od_get "parent.cam.array_callbacks" rest = Some (VInt 1)
         else True
     | None => True
     end).
Proof.
  rewrite init_runs. split; [reflexivity|].
  cbn -[od_setitem od_remove od_get].
  set (base := od_remove "enable"
                 (od_setitem "enable" (VInt 1) (stage_sigs (self w)))).
  assert (Hbase : "enable" ∉ keys base) by apply keys_remove.
  rewrite od_setitem_cons_ne by discriminate.
  set (blocking := od_setitem "blocking_callbacks" (VStr "Yes") base).
  assert (Hblocking : "enable" ∉ keys blocking).
  { intros [Heq|Hin]%keys_setitem; [discriminate | done]. }
  assert (Hyes : od_get "blocking_callbacks" blocking = Some (VStr "Yes"))
    by apply od_get_setitem_eq.
  assert (Hold : ∀ k, k ∈ keys (stage_sigs (self w)) →
                      k ∈ keys (("enable", VInt 1) :: blocking)).
  { intros k Hk. rewrite keys_cons. apply elem_of_cons.
    destruct (decide (k = "enable")) as [->|Hne]; [by left | right].
    apply keys_setitem_old.
    apply (od_get_Some_keys k (default (VInt 0) (od_get k base))).
    unfold base. rewrite od_get_remove_ne, od_get_setitem_ne by done.
    destruct (od_get k (stage_sigs (self w))) eqn:Hg; [done|].
    apply od_get_None in Hg. done. }
  destruct (parent (self w)) as [[[]]|]; cbn -[od_setitem od_remove od_get].
  - rewrite od_setitem_cons_ne by discriminate.
    eexists. repeat split.
    + intros [Heq|Hin]%keys_setitem; [discriminate | done].
    + rewrite od_get_setitem_ne by discriminate. done.
    + intros k Hk. specialize (Hold k Hk). rewrite keys_cons in *.
      apply elem_of_cons in Hold as [->|Hin]; apply elem_of_cons;
        [by left | right]. by apply keys_setitem_old.
    + apply od_get_setitem_eq.
  - eexists. repeat split; done.
  - eexists. repeat split; done.
Qed.

(** Directives the base classes inserted keep their order behind
    ['enable']. *)
Example init_moves_enable_to_front :
  stage_sigs
    (self (constructed StatsPlugin "XF:Stats1:" (Some {| has_cam := true |})
             [("blocking_callbacks", VStr "No"); ("enable", VInt 0);
              ("nd_array_port", VStr "CAM")]
             (Return "NDPluginStats"))) =
    [("enable", VInt 1); ("blocking_callbacks", VStr "Yes");
     ("nd_array_port", VStr "CAM"); ("parent.cam.array_callbacks", VInt 1)].
Proof. reflexivity. Qed.

Lemma C7_enable_is_first_after_construction_witness :
  ∃ rest,
    staging_order
      (self (constructed StatsPlugin "XF:Stats1:"
               (Some {| has_cam := true |})
               [("blocking_callbacks", VStr "No"); ("enable", VInt 0)]
               (Return "NDPluginStats"))) =
      ("enable", VInt 1) :: rest ∧
    ("enable" ∉ keys rest).
Proof.
  destruct (C7_enable_is_first_after_construction
              (allocated StatsPlugin "XF:Stats1:"
                 (Some {| has_cam := true |})
                 [("blocking_callbacks", VStr "No"); ("enable", VInt 0)]
                 (Return "NDPluginStats")))
    as (_ & rest & _ & Horder & Hrest & _).
  exists rest. split; [exact Horder | exact Hrest].
Defined.

(** ** Events *)

(** What a connection notification does to the state of a plugin with a
    declared type. *)
Lemma connection_state repr w t connected get :
  _plugin_type (cls (self w)) = Some t →
  _misconfigured (self (run_event repr w (Connection connected get))) =
    match connected, get with
    | true, Return s => verdict t s
    | _, _ => _misconfigured (self w)
    end.
Proof.
  intros Ht. unfold run_event.
  set (w0 := with_remote _ _ _ w).
  assert (Ht0 : _plugin_type (cls (self w0)) = Some t) by exact Ht.
  destruct connected.
  - destruct get as [s|e].
    + rewrite (connected_reads w0 t s Ht0 eq_refl). reflexivity.
    + rewrite (connected_raises w0 t e Ht0 eq_refl). reflexivity.
  - rewrite connected_skips by (by left). reflexivity.
Qed.

(** What staging does to the state of a plugin with a declared type. *)
Lemma staging_state repr w t super wait get :
  _plugin_type (cls (self w)) = Some t →
  _misconfigured (self (run_event repr w (Staging super wait get))) =
    match _misconfigured (self w), super, wait, get with
    | None, Return _, Return _, Return s => verdict t s
    | m, _, _, _ => m
    end.
Proof.
  intros Ht. unfold run_event.
  set (w0 := with_remote _ _ _ w).
  assert (Ht0 : _plugin_type (cls (self w0)) = Some t) by exact Ht.
  change (_misconfigured (self w)) with (_misconfigured (self w0)).
  destruct super as [[]|e].
  2:{ rewrite (stage_super_raises repr w0 e eq_refl). cbn.
      destruct (_misconfigured _); reflexivity. }
  destruct (_misconfigured (self w0)) as [b|] eqn:Hm.
  { rewrite (stage_known repr w0 b Hm eq_refl). cbn.
    destruct b; cbn; exact Hm. }
  destruct wait as [[]|e].
  2:{ rewrite (stage_wait_raises repr w0 e Hm eq_refl eq_refl). exact Hm. }
  rewrite (stage_unknown repr w0 Hm eq_refl eq_refl). cbn zeta.
  set (w1 := with_call _ (with_call _ w0)).
  assert (Ht1 : _plugin_type (cls (self w1)) = Some t) by exact Ht.
  destruct get as [s|e].
  - rewrite (connected_reads w1 t s Ht1 eq_refl).
    destruct (truthy _); cbn -[others_ran]; rewrite ?others_ran_self;
      reflexivity.
  - rewrite (connected_raises w1 t e Ht1 eq_refl).
    destruct (is_DestroyedError e); [|exact Hm].
    change (_misconfigured (self (with_call call_plugin_type_get w1)))
      with (_misconfigured (self w0)).
    rewrite Hm. cbn -[others_ran]. rewrite others_ran_self. exact Hm.
Qed.

(** No event changes the class of the plugin. *)
Lemma run_event_class repr w e :
  cls (self (run_event repr w e)) = cls (self w).
Proof.
  destruct (_plugin_type (cls (self w))) as [t|] eqn:Ht.
  - destruct e as [connected get | super wait get]; unfold run_event;
      set (w0 := with_remote _ _ _ w);
      assert (Ht0 : _plugin_type (cls (self w0)) = Some t) by exact Ht.
    + destruct connected.
      * destruct get as [s|e].
        -- rewrite (connected_reads w0 t s Ht0 eq_refl). reflexivity.
        -- rewrite (connected_raises w0 t e Ht0 eq_refl). reflexivity.
      * rewrite connected_skips by (by left). reflexivity.
    + destruct super as [[]|e].
      2:{ rewrite (stage_super_raises repr w0 e eq_refl). reflexivity. }
      destruct (_misconfigured (self w0)) as [b|] eqn:Hm.
      { rewrite (stage_known repr w0 b Hm eq_refl). destruct b; reflexivity. }
      destruct wait as [[]|e].
      2:{ rewrite (stage_wait_raises repr w0 e Hm eq_refl eq_refl).
          reflexivity. }
      rewrite (stage_unknown repr w0 Hm eq_refl eq_refl). cbn zeta.
      set (w1 := with_call _ (with_call _ w0)).
      assert (Ht1 : _plugin_type (cls (self w1)) = Some t) by exact Ht.
      destruct get as [s|e].
      * rewrite (connected_reads w1 t s Ht1 eq_refl).
        destruct (truthy _); cbn -[others_ran]; rewrite ?others_ran_self;
          reflexivity.
      * rewrite (connected_raises w1 t e Ht1 eq_refl).
        destruct (is_DestroyedError e); cbn -[others_ran]; [|reflexivity].
        destruct (truthy _); cbn -[others_ran]; rewrite ?others_ran_self;
          reflexivity.
  - destruct e as [connected get | super wait get]; unfold run_event;
      set (w0 := with_remote _ _ _ w);
      assert (Ht0 : _plugin_type (cls (self w0)) = None) by exact Ht.
    + rewrite connected_skips by (by right). reflexivity.
    + destruct super as [[]|e].
      2:{ rewrite (stage_super_raises repr w0 e eq_refl). reflexivity. }
      destruct (_misconfigured (self w0)) as [b|] eqn:Hm.
      { rewrite (stage_known repr w0 b Hm eq_refl). destruct b; reflexivity. }
      destruct wait as [[]|e].
      2:{ rewrite (stage_wait_raises repr w0 e Hm eq_refl eq_refl).
          reflexivity. }
      rewrite (stage_unknown repr w0 Hm eq_refl eq_refl). cbn zeta.
      rewrite connected_skips by (by right).
      destruct (truthy _); cbn -[others_ran]; rewrite ?others_ran_self;
        reflexivity.
Qed.

(** On a plugin without a declared type no event changes a state that is
    known. *)
Lemma untyped_state repr w e b :
  _plugin_type (cls (self w)) = None →
  _misconfigured (self w) = Some b →
  _misconfigured (self (run_event repr w e)) = Some b.
Proof.
  intros Ht Hm.
  destruct e as [connected get | super wait get]; unfold run_event;
    set (w0 := with_remote _ _ _ w);
    assert (Ht0 : _plugin_type (cls (self w0)) = None) by exact Ht;
    assert (Hm0 : _misconfigured (self w0) = Some b) by exact Hm.
  - rewrite connected_skips by (by right). exact Hm.
  - destruct super as [[]|e].
    + rewrite (stage_known repr w0 b Hm0 eq_refl). destruct b; exact Hm.
    + rewrite (stage_super_raises repr w0 e eq_refl). exact Hm.
Qed.

Lemma run_events_class repr es : ∀ w,
  cls (self (run_events repr w es)) = cls (self w).
Proof.
  induction es as [|e es IH]; intros w; [reflexivity|].
  unfold run_events in *. cbn. rewrite IH. apply run_event_class.
Qed.

Lemma run_events_untyped repr es : ∀ w,
  _plugin_type (cls (self w)) = None →
  _misconfigured (self w) = Some false →
  _misconfigured (self (run_events repr w es)) = Some false.
Proof.
  induction es as [|e es IH]; intros w Ht Hm; [exact Hm|].
  unfold run_events in *. cbn. apply IH.
  - rewrite run_event_class. exact Ht.
  - apply untyped_state; assumption.
Qed.

Lemma init_state w :
  _misconfigured (self (PluginBase.__init__ w).2) =
    (if is_None (_plugin_type (cls (self w))) then Some false else None)
  ∧ cls (self (PluginBase.__init__ w).2) = cls (self w).
Proof. rewrite init_runs. split; reflexivity. Qed.

(** C1. A plugin of a class with a declared type is constructed in the
    unknown state, and a type report read by the connection callback (or by
    staging while the state is unknown) moves it to confirmed-ok when the
    report starts with the declared type and to confirmed-bad otherwise.  A
    plugin of a class without a declared type is confirmed-ok when
    constructed and stays so whatever happens afterwards. *)
Theorem C1_type_report_decides_state (repr : string → string) (w : World) :
  (∀ t s,
     _plugin_type (cls (self w)) = Some t →
     _misconfigured (self (PluginBase.__init__ w).2) = None ∧
     _misconfigured
       (self (run_event repr w (Connection true (Return s)))) =
       Some (negb (startswith s t)) ∧
     (_misconfigured (self w) = None →
      _misconfigured
        (self (run_event repr w
                 (Staging (Return tt) (Return tt) (Return s)))) =
        Some (negb (startswith s t)))) ∧
  (_plugin_type (cls (self w)) = None →
   ∀ es,
     _misconfigured
       (self (run_events repr (PluginBase.__init__ w).2 es)) = Some false).
Proof.
  split.
  - intros t s Ht. split; [|split].
    + rewrite (proj1 (init_state w)), Ht. reflexivity.
    + rewrite (connection_state repr w t true (Return s) Ht). reflexivity.
    + intros Hm.
      rewrite (staging_state repr w t _ _ _ Ht), Hm. reflexivity.
  - intros Ht es. destruct (init_state w) as [Hm Hc].
    apply run_events_untyped.
    + rewrite Hc. exact Ht.
    + rewrite Hm, Ht. reflexivity.
Qed.

(** The statistics plugin, told ["NDPluginStats 1.9.1"], is confirmed; a
    plugin of the base class is confirmed through a notification and a
    staging. *)
Lemma C1_type_report_decides_state_witness :
  _misconfigured
    (self (run_event quote
             (allocated StatsPlugin "XF:Stats1:" None [] (Raise DestroyedError))
             (Connection true (Return "NDPluginStats 1.9.1")))) =
    Some false ∧
  _misconfigured
    (self (run_events quote
             (PluginBase.__init__
                (allocated PluginBase_class "XF:P1:" None []
                   (Return "NDPluginROI"))).2
             [Connection true (Return "NDPluginROI");
              Staging (Return tt) (Return tt) (Return "NDPluginROI")])) =
    Some false.
Proof.
  split.
  - exact (proj1 (proj2
      (proj1 (C1_type_report_decides_state quote
                (allocated StatsPlugin "XF:Stats1:" None []
                   (Raise DestroyedError)))
         "NDPluginStats" "NDPluginStats 1.9.1" eq_refl))).
  - exact (proj2 (C1_type_report_decides_state quote
                    (allocated PluginBase_class "XF:P1:" None []
                       (Return "NDPluginROI")))
             eq_refl
             [Connection true (Return "NDPluginROI");
              Staging (Return tt) (Return tt) (Return "NDPluginROI")]).
Defined.

(** C6. On a plugin with a declared type the type check is skipped, with
    the state as it was and no exception, when the notification says the
    point is not connected and when reading the point raises
    [DestroyedError]; an unknown state stays unknown.  Any other exception
    of the read leaves the callback, and in staging so do the exceptions of
    [wait_for_connection] and of the read. *)
Theorem C6_destroyed_is_skipped_others_escalate
    (repr : string → string) (w : World) (t : string) :
  _plugin_type (cls (self w)) = Some t →
  (∀ get,
     PluginBase._plugin_type_connected false
       (with_remote (remote_super_stage w) (remote_wait w) get w) =
     (Return tt, with_remote (remote_super_stage w) (remote_wait w) get w)) ∧
  (remote_plugin_type w = Raise DestroyedError →
   PluginBase._plugin_type_connected true w =
     (Return tt, with_call call_plugin_type_get w) ∧
   _misconfigured (self (PluginBase._plugin_type_connected true w).2) =
     _misconfigured (self w)) ∧
  (∀ e, is_DestroyedError e = false →
        remote_plugin_type w = Raise e →
        (PluginBase._plugin_type_connected true w).1 = Raise e ∧
        _misconfigured (self (PluginBase._plugin_type_connected true w).2) =
          _misconfigured (self w)) ∧
  (∀ e, _misconfigured (self w) = None →
        remote_super_stage w = Return tt →
        (remote_wait w = Raise e → (PluginBase.stage repr w).1 = Raise e) ∧
        (remote_wait w = Return tt →
         remote_plugin_type w = Raise e →
         (PluginBase.stage repr w).1 =
           (if is_DestroyedError e then Return tt else Raise e) ∧
         _misconfigured (self (PluginBase.stage repr w).2) = None)).
Proof.
  intros Ht. split; [|split; [|split]].
  - intros get. apply connected_skips. by left.
  - intros Hd. rewrite (connected_raises w t _ Ht Hd). split; reflexivity.
  - intros e He Hr. rewrite (connected_raises w t _ Ht Hr), He.
    split; reflexivity.
  - intros e Hm Hs. split.
    + intros Hw. rewrite (stage_wait_raises repr w e Hm Hs Hw). reflexivity.
    + intros Hw Hr. rewrite (stage_unknown repr w Hm Hs Hw). cbn zeta.
      set (w1 := with_call _ (with_call _ w)).
      assert (Ht1 : _plugin_type (cls (self w1)) = Some t) by exact Ht.
      assert (Hr1 : remote_plugin_type w1 = Raise e) by exact Hr.
      rewrite (connected_raises w1 t e Ht1 Hr1).
      destruct (is_DestroyedError e); [|split; [reflexivity | exact Hm]].
      change (_misconfigured (self (with_call call_plugin_type_get w1)))
        with (_misconfigured (self w)).
      rewrite Hm. cbn -[others_ran]. rewrite others_ran_self.
      split; [reflexivity | exact Hm].
Qed.

Lemma C6_destroyed_is_skipped_others_escalate_witness :
  PluginBase._plugin_type_connected true
    (constructed ROIPlugin "XF:ROI1:" None [] (Raise DestroyedError)) =
    (Return tt,
     with_call call_plugin_type_get
       (constructed ROIPlugin "XF:ROI1:" None [] (Raise DestroyedError))) ∧
  (PluginBase._plugin_type_connected true
     (constructed ROIPlugin "XF:ROI1:" None []
        (Raise (External "TimeoutError")))).1 =
    Raise (External "TimeoutError").
Proof.
  split.
  - exact (proj1 (proj1 (proj2
      (C6_destroyed_is_skipped_others_escalate quote
         (constructed ROIPlugin "XF:ROI1:" None [] (Raise DestroyedError))
         "NDPluginROI" eq_refl)) eq_refl)).
  - exact (proj1 (proj1 (proj2 (proj2
      (C6_destroyed_is_skipped_others_escalate quote
         (constructed ROIPlugin "XF:ROI1:" None []
            (Raise (External "TimeoutError")))
         "NDPluginROI" eq_refl)))
      (External "TimeoutError") eq_refl eq_refl)).
Defined.

(** C2, as the code has it.  Staging a plugin with a declared type whose
    state is unknown first calls [super().stage()], then waits for the
    type-report point to connect and reads no report before that wait has
    returned, then runs the type check.  When the check reads a report the
    state becomes the confirmed state the report decides.  A confirmed
    state returns; a bad state makes [stage] read the type report a second
    time for the message: it raises [PluginMisconfigurationError] with a
    message built from the prefix, the class name, the declared type and
    the type that second read reports, which is the report of the check
    when the point has not changed in between; when the second read raises,
    its exception leaves [stage] in place of the mismatch error.  The state
    stays bad either way.  When the read of the check raises
    [DestroyedError] the state stays unknown and staging returns without a
    mismatch error. *)
Theorem C2_staging_resolves_unknown
    (repr : string → string) (w : World) (t : string) :
  _plugin_type (cls (self w)) = Some t →
  _misconfigured (self w) = None →
  remote_super_stage w = Return tt →
  (∀ e, remote_wait w = Raise e →
        PluginBase.stage repr w =
          (Raise e,
           with_call call_wait_for_connection
             (with_call call_super_stage w))) ∧
  (remote_wait w = Return tt →
   (∀ s, remote_plugin_type w = Return s →
         _misconfigured (self (PluginBase.stage repr w).2) =
           Some (negb (startswith s t)) ∧
         (startswith s t = true →
          (PluginBase.stage repr w).1 = Return tt ∧
          calls (PluginBase.stage repr w).2 =
            calls w ++
            [call_super_stage; call_wait_for_connection;
             call_plugin_type_get]) ∧
         (startswith s t = false →
          (PluginBase.stage repr w).1 =
            match default (Return s) (remote_plugin_type_then w) with
            | Return reported =>
                Raise (PluginMisconfigurationError
                         (PluginBase.misconfiguration_message repr
                            (prefix (self w)) (__name__ (cls (self w)))
                            (Some t) reported))
            | Raise e => Raise e
            end ∧
          calls (PluginBase.stage repr w).2 =
            calls w ++
            [call_super_stage; call_wait_for_connection;
             call_plugin_type_get; call_plugin_type_get])) ∧
   (remote_plugin_type w = Raise DestroyedError →
    (PluginBase.stage repr w).1 = Return tt ∧
    _misconfigured (self (PluginBase.stage repr w).2) = None ∧
    calls (PluginBase.stage repr w).2 =
      calls w ++
      [call_super_stage; call_wait_for_connection; call_plugin_type_get])).
Proof.
  intros Ht Hm Hs. split.
  - intros e Hw. apply stage_wait_raises; assumption.
  - intros Hw. rewrite (stage_unknown repr w Hm Hs Hw). cbn zeta.
    set (w1 := with_call _ (with_call _ w)).
    assert (Ht1 : _plugin_type (cls (self w1)) = Some t) by exact Ht.
    split.
    + intros s Hr.
      assert (Hr1 : remote_plugin_type w1 = Return s) by exact Hr.
      rewrite (connected_reads w1 t s Ht1 Hr1).
      set (w2 := with_log _ _).
      assert (Hthen : remote_plugin_type_then w2 = remote_plugin_type_then w)
        by reflexivity.
      assert (Hget2 : remote_plugin_type w2 = Return s) by exact Hr.
      assert (Hstate : _misconfigured (self w2) = Some (negb (startswith s t)))
        by reflexivity.
      assert (Hcalls : calls w2 =
                calls w ++ [call_super_stage; call_wait_for_connection;
                            call_plugin_type_get]).
      { cbn. by rewrite <- !app_assoc. }
      rewrite Hstate, others_ran_get, Hget2, Hthen.
      destruct (startswith s t); cbn -[others_ran].
      * rewrite others_ran_self, others_ran_calls.
        split; [exact Hstate|]. split; [|done]. intros _. by split.
      * rewrite others_ran_self, others_ran_calls, Hcalls, Ht.
        split; [exact Hstate|]. split; [done|]. intros _.
        split; [|by rewrite <- !app_assoc].
        by destruct (default (Return s) (remote_plugin_type_then w)).
    + intros Hr.
      assert (Hr1 : remote_plugin_type w1 = Raise DestroyedError) by exact Hr.
      rewrite (connected_raises w1 t _ Ht1 Hr1). cbn -[others_ran].
      rewrite Hm. cbn -[others_ran].
      rewrite others_ran_self, others_ran_calls. cbn.
      rewrite <- ?app_assoc. repeat split; try reflexivity. exact Hm.
Qed.

Lemma C2_staging_resolves_unknown_witness :
  (PluginBase.stage quote
     (constructed ROIPlugin "XF:Stats1:" None [] (Return "NDPluginStats 1.9.1"))).1
  = Raise (PluginMisconfigurationError
             (PluginBase.misconfiguration_message quote "XF:Stats1:"
                "ROIPlugin" (Some "NDPluginROI") "NDPluginStats 1.9.1")).
Proof.
  exact (proj1 (proj2 (proj2 (proj1 (proj2
    (C2_staging_resolves_unknown quote
       (constructed ROIPlugin "XF:Stats1:" None []
          (Return "NDPluginStats 1.9.1"))
       "NDPluginROI" eq_refl eq_refl eq_refl) eq_refl)
    "NDPluginStats 1.9.1" eq_refl)) eq_refl)).
Defined.

(** The type-report point destroyed between the two reads of [stage]: the
    check reads a report that does not match, the read for the message
    raises, and [DestroyedError] leaves [stage] with the state bad. *)
Example staging_when_the_second_read_raises :
  let w := others_change (Some (Raise DestroyedError))
             (constructed ROIPlugin "XF:Stats1:" None []
                (Return "NDPluginStats 1.9.1")) in
  (PluginBase.stage quote w).1 = Raise DestroyedError ∧
  _misconfigured (self (PluginBase.stage quote w).2) = Some true.
Proof. split; reflexivity. Qed.

(** C2 as stated fails where the handle is destroyed between the wait and
    the read: a statistics plugin in the unknown state is staged,
    [super().stage()] and [wait_for_connection()] return, the read raises
    [DestroyedError]; staging returns normally and the state is no confirmed
    state. *)
Lemma C2_destroyed_handle_leaves_state_unknown :
  let w := constructed StatsPlugin "XF:Stats1:" None []
             (Raise DestroyedError) in
  _plugin_type (cls (self w)) = Some "NDPluginStats" ∧
  _misconfigured (self w) = None ∧
  remote_super_stage w = Return tt ∧
  remote_wait w = Return tt ∧
  (PluginBase.stage quote w).1 = Return tt ∧
  ¬ ∃ b, _misconfigured (self (PluginBase.stage quote w).2) = Some b.
Proof.
  cbv zeta. repeat split; try reflexivity.
  intros [b Hb]. vm_compute in Hb. discriminate Hb.
Qed.

(** C5, as the code has it.  On a plugin with a declared type the state
    leaves unknown for the confirmed state the report decides the first
    time a report is read, by the connection callback or by staging; no
    sequence of events takes a confirmed state back to unknown; staging
    never changes a confirmed state; a later connection notification that
    reads a report sets the state to what that report decides, and any
    other notification leaves it as it is. *)
Theorem C5_state_transitions
    (repr : string → string) (w : World) (t : string) :
  _plugin_type (cls (self w)) = Some t →
  (∀ s, _misconfigured (self w) = None →
        _misconfigured
          (self (run_event repr w (Connection true (Return s)))) =
          Some (negb (startswith s t)) ∧
        _misconfigured
          (self (run_event repr w
                   (Staging (Return tt) (Return tt) (Return s)))) =
          Some (negb (startswith s t))) ∧
  (∀ es, _misconfigured (self w) ≠ None →
         _misconfigured (self (run_events repr w es)) ≠ None) ∧
  (∀ b super wait get,
     _misconfigured (self w) = Some b →
     _misconfigured (self (run_event repr w (Staging super wait get))) =
       Some b) ∧
  (∀ b connected get,
     _misconfigured (self w) = Some b →
     _misconfigured (self (run_event repr w (Connection connected get))) =
       match connected, get with
       | true, Return s => Some (negb (startswith s t))
       | _, _ => Some b
       end).
Proof.
  intros Ht. split; [|split; [|split]].
  - intros s Hm. split.
    + rewrite (connection_state repr w t _ _ Ht). reflexivity.
    + rewrite (staging_state repr w t _ _ _ Ht), Hm. reflexivity.
  - intros es. revert w Ht.
    induction es as [|e es IH]; intros w Ht Hm; [exact Hm|].
    unfold run_events in *. cbn. apply IH.
    + rewrite run_event_class. exact Ht.
    + destruct (_misconfigured (self w)) as [b|] eqn:Hb; [|done].
      destruct e as [connected get | super wait get].
      * rewrite (connection_state repr w t _ _ Ht), Hb.
        destruct connected, get; done.
      * rewrite (staging_state repr w t _ _ _ Ht), Hb. done.
  - intros b super wait get Hm.
    rewrite (staging_state repr w t _ _ _ Ht), Hm. reflexivity.
  - intros b connected get Hm.
    rewrite (connection_state repr w t _ _ Ht), Hm. reflexivity.
Qed.

Lemma C5_state_transitions_witness :
  _misconfigured
    (self (run_event quote
             (constructed StatsPlugin "XF:Stats1:" None []
                (Raise DestroyedError))
             (Connection true (Return "NDPluginStats 1.9.1")))) =
    Some false.
Proof.
  exact (proj1 (proj1
    (C5_state_transitions quote
       (constructed StatsPlugin "XF:Stats1:" None [] (Raise DestroyedError))
       "NDPluginStats" eq_refl)
    "NDPluginStats 1.9.1" eq_refl)).
Defined.

(** C5 as stated fails on a second connection notification with another
    report: the statistics plugin is confirmed by ["NDPluginStats 1.9.1"],
    and the next notification, reading ["NDPluginROI 1.9.1"], turns the
    confirmed-ok state into confirmed-bad. *)
Lemma C5_later_notification_changes_state :
  let w0 := constructed StatsPlugin "XF:Stats1:" None []
              (Raise DestroyedError) in
  let w1 := run_event quote w0
              (Connection true (Return "NDPluginStats 1.9.1")) in
  let w2 := run_event quote w1
              (Connection true (Return "NDPluginROI 1.9.1")) in
  _plugin_type (cls (self w0)) = Some "NDPluginStats" ∧
  _misconfigured (self w0) = None ∧
  _misconfigured (self w1) = Some false ∧
  _misconfigured (self w2) = Some true ∧
  _misconfigured (self w2) ≠ _misconfigured (self w1).
Proof. cbv zeta. repeat split; try reflexivity. vm_compute. discriminate. Qed.

(** ** The upstream chain *)

(** More fuel never changes an answer. *)
Lemma asyn_pipeline_fuel_mono t : ∀ fuel self r,
  Pipeline._asyn_pipeline fuel t self = Some r →
  ∀ fuel', (fuel ≤ fuel')%nat → Pipeline._asyn_pipeline fuel' t self = Some r.
Proof.
  induction fuel as [|fuel IH]; intros self r Hr fuel' Hle; [discriminate|].
  destruct fuel' as [|fuel']; [lia|].
  assert (Hle' : (fuel ≤ fuel')%nat) by lia.
  cbn in Hr |- *.
  destruct (nd_array_port_get t self) as [port|e]; [|exact Hr].
  destruct (get_plugin_by_asyn_port t port) as [[q|n]|e]; try exact Hr.
  destruct (Pipeline._asyn_pipeline fuel t q) as [rq|] eqn:Hq; [|discriminate].
  rewrite (IH q rq Hq fuel' Hle'). exact Hr.
Qed.

Lemma asyn_pipeline_deterministic t self f1 f2 r1 r2 :
  Pipeline._asyn_pipeline f1 t self = Some r1 →
  Pipeline._asyn_pipeline f2 t self = Some r2 →
  r1 = r2.
Proof.
  intros H1 H2.
  pose proof (asyn_pipeline_fuel_mono t f1 self r1 H1 (f1 `max` f2)
                ltac:(lia)) as H1'.
  pose proof (asyn_pipeline_fuel_mono t f2 self r2 H2 (f1 `max` f2)
                ltac:(lia)) as H2'.
  congruence.
Qed.

Lemma asyn_pipeline_source t self port n fuel :
  nd_array_port_get t self = Return port →
  get_plugin_by_asyn_port t port = Return (OtherDev n) →
  Pipeline._asyn_pipeline (S fuel) t self =
    Some (Return [OtherDev n; PluginDev self]).
Proof. intros Hp Hl. cbn. rewrite Hp, Hl. reflexivity. Qed.

Lemma asyn_pipeline_plugin t self port q fuel chain :
  nd_array_port_get t self = Return port →
  get_plugin_by_asyn_port t port = Return (PluginDev q) →
  Pipeline._asyn_pipeline fuel t q = Some (Return chain) →
  Pipeline._asyn_pipeline (S fuel) t self =
    Some (Return (chain ++ [PluginDev self])).
Proof. intros Hp Hl Hq. cbn. rewrite Hp, Hl, Hq. reflexivity. Qed.

Lemma asyn_pipeline_no_attribute t self port q fuel a :
  nd_array_port_get t self = Return port →
  get_plugin_by_asyn_port t port = Return (PluginDev q) →
  Pipeline._asyn_pipeline fuel t q = Some (Raise (AttributeError a)) →
  Pipeline._asyn_pipeline (S fuel) t self =
    Some (Return [PluginDev q; PluginDev self]).
Proof. intros Hp Hl Hq. cbn. rewrite Hp, Hl, Hq. reflexivity. Qed.

(** The code computes the chain of the specification, with fuel to spare
    from some depth on. *)
Lemma asyn_pipeline_resolves t self chain :
  resolve_chain t self chain →
  ∃ n, ∀ fuel, (n ≤ fuel)%nat →
    Pipeline._asyn_pipeline fuel t self = Some (Return chain).
Proof.
  induction 1 as [self port n Hp Hl | self port q chain Hp Hl Hq [n IH]].
  - exists 1. intros [|fuel] Hle; [lia|].
    by apply (asyn_pipeline_source t self port).
  - exists (S n). intros [|fuel] Hle; [lia|].
    apply (asyn_pipeline_plugin t self port q); [done..|].
    apply IH. lia.
Qed.

(** C3. With the source-port value read and the upstream device looked up
    in the root's port index, [_asyn_pipeline] is the two-element sequence
    of upstream device and plugin when the upstream device has no chain
    (it is no plugin, or its property raises [AttributeError]), and the
    chain of the upstream plugin with this plugin appended when there is
    one.  A plugin the root source feeds has the chain [[source; plugin]];
    every chain the specification derives is what the code returns once the
    recursion is given its depth; and two calls in the same topology return
    the same sequence. *)
Theorem C3_asyn_pipeline_chain
    (t : Topology) (self port : string) (up : device) :
  nd_array_port_get t self = Return port →
  get_plugin_by_asyn_port t port = Return up →
  (∀ n fuel, up = OtherDev n →
     Pipeline._asyn_pipeline (S fuel) t self =
       Some (Return [up; PluginDev self])) ∧
  (∀ q fuel a, up = PluginDev q →
     Pipeline._asyn_pipeline fuel t q = Some (Raise (AttributeError a)) →
     Pipeline._asyn_pipeline (S fuel) t self =
       Some (Return [up; PluginDev self])) ∧
  (∀ q fuel chain, up = PluginDev q →
     Pipeline._asyn_pipeline fuel t q = Some (Return chain) →
     Pipeline._asyn_pipeline (S fuel) t self =
       Some (Return (chain ++ [PluginDev self]))) ∧
  (∀ chain, resolve_chain t self chain →
     ∃ n, ∀ fuel, (n ≤ fuel)%nat →
       Pipeline._asyn_pipeline fuel t self = Some (Return chain)) ∧
  (∀ fuel1 fuel2 r1 r2,
     Pipeline._asyn_pipeline fuel1 t self = Some r1 →
     Pipeline._asyn_pipeline fuel2 t self = Some r2 →
     r1 = r2).
Proof.
  intros Hp Hl. repeat split.
  - intros n fuel ->. by apply (asyn_pipeline_source t self port).
  - intros q fuel a -> Hq. by apply (asyn_pipeline_no_attribute t self port q fuel a).
  - intros q fuel chain -> Hq. by apply (asyn_pipeline_plugin t self port q).
  - apply asyn_pipeline_resolves.
  - apply asyn_pipeline_deterministic.
Qed.

(** In the example the camera feeds ["roi1"], which feeds ["stats1"]. *)
Example asyn_pipeline_roi1 :
  Pipeline._asyn_pipeline 1 example_topology "roi1" =
    Some (Return [OtherDev "cam"; PluginDev "roi1"]).
Proof. reflexivity. Qed.

Example asyn_pipeline_stats1 :
  Pipeline._asyn_pipeline 2 example_topology "stats1" =
    Some (Return [OtherDev "cam"; PluginDev "roi1"; PluginDev "stats1"]).
Proof. reflexivity. Qed.

Lemma C3_asyn_pipeline_chain_witness :
  Pipeline._asyn_pipeline 2 example_topology "stats1" =
    Some (Return ([OtherDev "cam"; PluginDev "roi1"] ++ [PluginDev "stats1"])).
Proof.
  exact (proj1 (proj2 (proj2
    (C3_asyn_pipeline_chain example_topology "stats1" "ROI1"
       (PluginDev "roi1") eq_refl eq_refl)))
    "roi1" 1 [OtherDev "cam"; PluginDev "roi1"] eq_refl eq_refl).
Defined.

(** ** Merged configuration *)

Section UpdateFacts.
Context {K V : Type} `{EqDecision K}.
Implicit Types (d o : list (K * V)) (k : K) (v : V).

Lemma od_update_cons d k v o :
  od_update d ((k, v) :: o) = od_update (od_setitem k v d) o.
Proof. reflexivity. Qed.

(** After [d.update(o)] a key of [o] has the value [o] gives it, any
    other key the value it had in [d]. *)
Lemma od_get_update k o : ∀ d,
  NoDup (keys o) →
  od_get k (od_update d o) =
    match od_get k o with
    | Some v => Some v
    | None => od_get k d
    end.
Proof.
  induction o as [|[k' v'] o IH]; intros d Hnd; [reflexivity|].
  rewrite keys_cons in Hnd. apply NoDup_cons in Hnd as [Hk' Hnd].
  rewrite od_update_cons, (IH _ Hnd). cbn.
  case_bool_decide as Hk.
  - subst k'. apply od_get_None in Hk'. rewrite Hk'.
    apply od_get_setitem_eq.
  - destruct (od_get k o); [reflexivity|].
    apply od_get_setitem_ne. congruence.
Qed.

Lemma keys_setitem_order k v d :
  keys (od_setitem k v d) =
    if bool_decide (k ∈ keys d) then keys d else keys d ++ [k].
Proof.
  induction d as [|[k0 v0] d IH]; [reflexivity|].
  cbn [od_setitem]. rewrite !keys_cons.
  destruct (decide (k0 = k)) as [->|H0].
  - rewrite (bool_decide_eq_true_2 (k = k)) by done.
    rewrite keys_cons, bool_decide_eq_true_2; [done|].
    apply elem_of_cons. by left.
  - rewrite (bool_decide_eq_false_2 (k0 = k)) by done.
    rewrite keys_cons, IH.
    destruct (decide (k ∈ keys d)) as [Hin|Hin].
    + rewrite !bool_decide_eq_true_2; [done| |done].
      apply elem_of_cons. by right.
    + rewrite !bool_decide_eq_false_2; [done| |done].
      intros [->|?]%elem_of_cons; done.
Qed.

Lemma filter_agree (P Q : K → Prop)
    `{∀ x, Decision (P x)} `{∀ x, Decision (Q x)} (l : list K) :
  (∀ x, x ∈ l → P x ↔ Q x) → filter P l = filter Q l.
Proof.
  induction l as [|x l IH]; intros HPQ; [reflexivity|].
  rewrite !filter_cons.
  assert (Hx : P x ↔ Q x) by (apply HPQ; apply elem_of_cons; by left).
  assert (Hl : filter P l = filter Q l).
  { apply IH. intros y Hy. apply HPQ. apply elem_of_cons. by right. }
  destruct (decide (P x)), (decide (Q x)); rewrite ?Hl; tauto.
Qed.

(** [d.update(o)] keeps the keys of [d] where they stand and appends the
    keys of [o] that are new, in the order of [o]. *)
Lemma keys_update o : ∀ d,
  NoDup (keys o) →
  keys (od_update d o) =
    keys d ++ filter (fun k => k ∉ keys d) (keys o).
Proof.
  induction o as [|[k' v'] o IH]; intros d Hnd.
  - cbn. by rewrite app_nil_r.
  - rewrite keys_cons in Hnd. apply NoDup_cons in Hnd as [Hk' Hnd].
    rewrite od_update_cons, (IH _ Hnd), keys_setitem_order, keys_cons.
    rewrite filter_cons.
    destruct (decide (k' ∈ keys d)) as [Hin|Hin].
    + rewrite bool_decide_eq_true_2 by done.
      rewrite decide_False by (intros Hn; by apply Hn). done.
    + rewrite bool_decide_eq_false_2 by done.
      rewrite decide_True by done.
      rewrite <- app_assoc. cbn. do 2 f_equal.
      apply filter_agree. intros k Hk.
      rewrite elem_of_app, list_elem_of_singleton.
      split; [tauto|].
      intros Hn [?| ->]; done.
Qed.
End UpdateFacts.

Section ConfigurationFacts.
Variable own : Topology → device → result (list (string * pyval)).

Lemma configuration_source t self n ret up fuel :
  own t (PluginDev self) = Return ret →
  Pipeline.source_plugin t self = Return (OtherDev n) →
  own t (OtherDev n) = Return up →
  Pipeline.configuration own (S fuel) t self =
    Some (Return (od_update ret up)).
Proof. intros Ho Hs Hu. cbn. rewrite Ho, Hs, Hu. reflexivity. Qed.

Lemma configuration_plugin t self q ret up fuel :
  own t (PluginDev self) = Return ret →
  Pipeline.source_plugin t self = Return (PluginDev q) →
  Pipeline.configuration own fuel t q = Some (Return up) →
  Pipeline.configuration own (S fuel) t self =
    Some (Return (od_update ret up)).
Proof. intros Ho Hs Hu. cbn. rewrite Ho, Hs, Hu. reflexivity. Qed.

Lemma chain_configuration_snoc cfg chain d :
  chain ≠ [] →
  chain_configuration cfg (chain ++ [d]) =
    od_update (cfg d) (chain_configuration cfg chain).
Proof.
  destruct chain as [|source plugins]; [done|]. intros _.
  cbn. rewrite foldl_snoc. reflexivity.
Qed.

Lemma resolve_chain_nonempty t self chain :
  resolve_chain t self chain → chain ≠ [].
Proof. destruct 1; [done|]. by destruct chain. Qed.

(** Along a chain whose devices all answer, the query returns the merge
    of the chain, from some depth of recursion on. *)
Lemma configuration_chain t cfg self chain :
  resolve_chain t self chain →
  (∀ d, d ∈ chain → own t d = Return (cfg d)) →
  ∃ n, ∀ fuel, (n ≤ fuel)%nat →
    Pipeline.configuration own fuel t self =
      Some (Return (chain_configuration cfg chain)).
Proof.
  induction 1 as [self port n Hp Hl | self port q chain Hp Hl Hq IH];
    intros Hown.
  - exists 1. intros [|fuel] Hle; [lia|].
    apply (configuration_source t self n).
    + apply Hown. set_solver.
    + unfold Pipeline.source_plugin. by rewrite Hp.
    + apply Hown. set_solver.
  - destruct IH as [n IH]; [intros d Hd; apply Hown; set_solver|].
    exists (S n). intros [|fuel] Hle; [lia|].
    rewrite chain_configuration_snoc
      by (by eapply resolve_chain_nonempty).
    apply (configuration_plugin t self q).
    + apply Hown. set_solver.
    + unfold Pipeline.source_plugin. by rewrite Hp.
    + apply IH. lia.
Qed.
End ConfigurationFacts.

(** C4, as the code has it.  The query starts from the plugin's own
    configuration and updates it with the merged configuration of its
    source, for [read_configuration] and [describe_configuration] alike.
    In the result the plugin's own fields come first and the upstream
    fields that are new follow, and on a colliding field name the upstream
    value wins.  Along a whole chain whose devices answer, the query
    returns the merge of the chain once the recursion is given its depth. *)
Theorem C4_configuration_merge
    (t : Topology) (self : string) (source : device)
    (ret up : list (string * pyval)) (fuel : nat) :
  Pipeline.source_plugin t self = Return source →
  NoDup (keys up) →
  (own_read_configuration t (PluginDev self) = Return ret →
   match source with
   | OtherDev n => own_read_configuration t source = Return up
   | PluginDev q => Pipeline.read_configuration fuel t q = Some (Return up)
   end →
   Pipeline.read_configuration (S fuel) t self =
     Some (Return (od_update ret up))) ∧
  (own_describe_configuration t (PluginDev self) = Return ret →
   match source with
   | OtherDev n => own_describe_configuration t source = Return up
   | PluginDev q =>
       Pipeline.describe_configuration fuel t q = Some (Return up)
   end →
   Pipeline.describe_configuration (S fuel) t self =
     Some (Return (od_update ret up))) ∧
  keys (od_update ret up) =
    keys ret ++ filter (fun k => k ∉ keys ret) (keys up) ∧
  (∀ k, od_get k (od_update ret up) =
          match od_get k up with
          | Some v => Some v
          | None => od_get k ret
          end) ∧
  (∀ cfg chain,
     resolve_chain t self chain →
     (∀ d, d ∈ chain → own_read_configuration t d = Return (cfg d)) →
     ∃ n, ∀ fuel', (n ≤ fuel')%nat →
       Pipeline.read_configuration fuel' t self =
         Some (Return (chain_configuration cfg chain))).
Proof.
  intros Hs Hnd. split; [|split; [|split; [|split]]].
  - intros Ho Hu. destruct source as [q|n].
    + by apply (configuration_plugin _ t self q).
    + by apply (configuration_source _ t self n).
  - intros Ho Hu. destruct source as [q|n].
    + by apply (configuration_plugin _ t self q).
    + by apply (configuration_source _ t self n).
  - by apply keys_update.
  - intros k. by apply od_get_update.
  - intros cfg chain. apply configuration_chain.
Qed.

(** The ROI plugin of the example, fed by the camera: its own two fields
    first, the camera's value under the shared name, the camera's other
    field last. *)
Example read_configuration_roi1 :
  Pipeline.read_configuration 1 example_topology "roi1" =
    Some (Return [("det_roi1_enable", VStr "Enable");
                  ("shared", VStr "cam");
                  ("det_cam_acquire_time", VInt 1)]).
Proof. reflexivity. Qed.

Lemma C4_configuration_merge_witness :
  Pipeline.read_configuration 1 example_topology "roi1" =
    Some (Return (od_update
                    (example_configuration (PluginDev "roi1"))
                    (example_configuration (OtherDev "cam")))).
Proof.
  refine (proj1
    (C4_configuration_merge example_topology "roi1" (OtherDev "cam")
       (example_configuration (PluginDev "roi1"))
       (example_configuration (OtherDev "cam")) 0 eq_refl _)
    eq_refl eq_refl).
  by apply (bool_decide_unpack _).
Defined.

(** C4 as stated fails on the two-level chain of the example: the claim
    asks for the camera's fields followed by the plugin's, with the
    plugin's value under the shared name; the code returns the plugin's
    fields first and the camera's value under the shared name. *)
Lemma C4_upstream_value_wins_and_comes_last :
  let cam := example_configuration (OtherDev "cam") in
  let roi := example_configuration (PluginDev "roi1") in
  Pipeline._asyn_pipeline 1 example_topology "roi1" =
    Some (Return [OtherDev "cam"; PluginDev "roi1"]) ∧
  merged_configuration_spec cam roi =
    [("det_cam_acquire_time", VInt 1); ("shared", VStr "roi1");
     ("det_roi1_enable", VStr "Enable")] ∧
  Pipeline.read_configuration 1 example_topology "roi1" =
    Some (Return [("det_roi1_enable", VStr "Enable"); ("shared", VStr "cam");
                  ("det_cam_acquire_time", VInt 1)]) ∧
  Pipeline.read_configuration 1 example_topology "roi1" ≠
    Some (Return (merged_configuration_spec cam roi)) ∧
  Pipeline.describe_configuration 1 example_topology "roi1" ≠
    Some (Return (merged_configuration_spec cam roi)).
Proof. cbv zeta. repeat split; try reflexivity; vm_compute; discriminate. Qed.

(** ** Discovery *)

(** The loop returns the first class whose pattern matches. *)
Lemma plugin_from_pvname_first pv before k c after :
  Forall (fun kc => re_search (_suffix_re kc.2) pv = Return false) before →
  re_search (_suffix_re c) pv = Return true →
  plugin_from_pvname_items (before ++ (k, c) :: after) pv = Return (Some c).
Proof.
  intros Hb Hc. induction Hb as [|[k0 c0] before H0 Hb IH]; cbn.
  - rewrite Hc. reflexivity.
  - cbn in H0. rewrite H0. exact IH.
Qed.

Lemma plugin_from_pvname_none pv items :
  Forall (fun kc => re_search (_suffix_re kc.2) pv = Return false) items →
  plugin_from_pvname_items items pv = Return None.
Proof.
  intros Hb. induction Hb as [|[k0 c0] items H0 Hb IH]; cbn; [reflexivity|].
  cbn in H0. rewrite H0. exact IH.
Qed.

(** Pattern discovery reads the registry and nothing else. *)
Lemma plugin_from_pvname_pure pv s :
  plugin_from_pvname pv s = (plugin_from_pvname_items (_plugin_class s) pv, s).
Proof. reflexivity. Qed.

Lemma messages_differ type_ : timed_out_message ≠ not_registered_message type_.
Proof. unfold timed_out_message, not_registered_message. cbn. discriminate. Qed.

(** [split_space_0] cuts at the first space. *)
Lemma split_space_0_spec v :
  ∃ rest,
    v = split_space_0 v +:+ rest ∧
    (rest = EmptyString ∨ ∃ r, rest = String " " r) ∧
    Forall (fun c => c ≠ " "%char) (list_ascii_of_string (split_space_0 v)).
Proof.
  induction v as [|c v (rest & Hv & Hrest & Hidx)]; cbn.
  - exists EmptyString. repeat split; auto.
  - destruct (Ascii.eqb_spec c " "%char) as [->|Hc]; cbn.
    + exists (String " " v). repeat split; eauto.
    + exists rest. repeat split; [|exact Hrest | by constructor].
      change (String c v = String c (split_space_0 v +:+ rest)).
      by rewrite <- Hv.
Qed.

(** C8. Pattern discovery returns the first registered class whose pattern
    matches the prefix, and [None] when none does; it reads the registry
    and asks nothing of channel access.  Discovery with fallback returns
    the class the pattern finds without a read; when no pattern matches it
    reads the type-report point at the prefix once, with the caller's
    timeout or 2.0 when none is given, cuts the report at the first space
    and returns the class registered under what is left; it raises one
    [ValueError] when the read timed out and another, never the same, when
    nothing is registered under the identifier. *)
Theorem C8_discovery (prefix : string) (timeout : option Q) (s : Process) :
  (plugin_from_pvname prefix s).2 = s ∧
  (∀ before k c after,
     _plugin_class s = before ++ (k, c) :: after →
     Forall (fun kc => re_search (_suffix_re kc.2) prefix = Return false)
       before →
     re_search (_suffix_re c) prefix = Return true →
     (plugin_from_pvname prefix s).1 = Return (Some c) ∧
     get_areadetector_plugin_class prefix timeout s = (Return c, s)) ∧
  (Forall (fun kc => re_search (_suffix_re kc.2) prefix = Return false)
     (_plugin_class s) →
   (plugin_from_pvname prefix s).1 = Return None ∧
   get_areadetector_plugin_class prefix timeout s =
     (match caget s (prefix +:+ "PluginType_RBV") (default 2.0%Q timeout) with
      | None => Raise (ValueError timed_out_message)
      | Some report =>
          match od_get (Some (split_space_0 report)) (_plugin_class s) with
          | Some c => Return c
          | None =>
              Raise (ValueError
                       (not_registered_message (split_space_0 report)))
          end
      end,
      with_caget_call (prefix +:+ "PluginType_RBV") (default 2.0%Q timeout)
        s)) ∧
  (∀ type_, timed_out_message ≠ not_registered_message type_) ∧
  (∀ report, ∃ rest,
     report = split_space_0 report +:+ rest ∧
     (rest = EmptyString ∨ ∃ r, rest = String " " r) ∧
     Forall (fun c => c ≠ " "%char)
       (list_ascii_of_string (split_space_0 report))).
Proof.
  split; [reflexivity|]. split; [|split; [|split]].
  - intros before k c after Hreg Hb Hc.
    pose proof (plugin_from_pvname_first prefix before k c after Hb Hc) as Hf.
    rewrite <- Hreg in Hf. split.
    + rewrite plugin_from_pvname_pure. exact Hf.
    + unfold get_areadetector_plugin_class. py_step.
      rewrite plugin_from_pvname_pure, Hf. reflexivity.
  - intros Hnone.
    pose proof (plugin_from_pvname_none prefix _ Hnone) as Hf. split.
    + rewrite plugin_from_pvname_pure. exact Hf.
    + unfold get_areadetector_plugin_class, cl_caget. py_step.
      rewrite plugin_from_pvname_pure, Hf. cbn.
      destruct (caget s _ _) as [report|]; [|reflexivity]. cbn.
      destruct (od_get _ _); reflexivity.
  - apply messages_differ.
  - apply split_space_0_spec.
Qed.

(** On the registry of the module: a prefix ending in ["Stats7:"] is a
    statistics plugin by its pattern, with no read; a prefix no pattern
    matches is resolved by the report. *)
Example discovery_by_pattern ca :
  get_areadetector_plugin_class "XF:23ID1-ES{Tst-Cam:1}Stats7:" None
    (module_loaded ca) = (Return StatsPlugin, module_loaded ca).
Proof. reflexivity. Qed.

Example discovery_by_query :
  (get_areadetector_plugin_class "XF:23ID1-ES{Tst-Cam:1}H5:" None
     (module_loaded (fun _ _ => Some "NDFileHDF5 ver1.9.1"))).1 =
    Return HDF5Plugin.
Proof. reflexivity. Qed.

Lemma C8_discovery_witness :
  get_areadetector_plugin_class "XF:23ID1-ES{Tst-Cam:1}H5:" None
    (module_loaded (fun _ _ => None)) =
    (Raise (ValueError timed_out_message),
     with_caget_call "XF:23ID1-ES{Tst-Cam:1}H5:PluginType_RBV" 2.0%Q
       (module_loaded (fun _ _ => None))).
Proof.
  refine (proj2 (proj1 (proj2 (proj2
    (C8_discovery "XF:23ID1-ES{Tst-Cam:1}H5:" None
       (module_loaded (fun _ _ => None))))) _)).
  repeat constructor.
Defined.

(** ** The region-of-interest setter *)

Lemma axis_points_getattr d lo size :
  axis_points d = Some (lo, size) →
  ROI.getattr ("min_xyz.min_" +:+ d) = Return lo ∧
  ROI.getattr ("size." +:+ d) = Return size ∧
  lo ≠ size ∧
  axis_of_point lo = Some d ∧ axis_of_point size = Some d.
Proof.
  unfold axis_points. intros H.
  repeat case_bool_decide; simplify_eq; done.
Qed.

Lemma axis_points_valid d :
  d ∈ ["x"; "y"; "z"] → ∃ lo size, axis_points d = Some (lo, size).
Proof.
  rewrite !elem_of_cons, elem_of_nil.
  intros [->|[->|[->|[]]]]; eexists _, _; reflexivity.
Qed.

Lemma write_all_app r ws1 ws2 :
  write_all r (ws1 ++ ws2) = write_all (write_all r ws1) ws2.
Proof. apply foldl_app. Qed.

Lemma write_all_accepts ws : ∀ r, accepts (write_all r ws) = accepts r.
Proof.
  induction ws as [|[p v] ws IH]; intros r; [reflexivity|].
  cbn. rewrite IH. reflexivity.
Qed.

Lemma write_all_writes ws : ∀ r, writes (write_all r ws) = writes r ++ ws.
Proof.
  induction ws as [|[p v] ws IH]; intros r; cbn.
  - by rewrite app_nil_r.
  - rewrite IH. cbn. by rewrite <- app_assoc.
Qed.

(** A point no write names keeps its value. *)
Lemma write_all_untouched ws p : ∀ r,
  p ∉ ws.*1 → points (write_all r ws) !! p = points r !! p.
Proof.
  induction ws as [|[p' v'] ws IH]; intros r Hp; [reflexivity|].
  cbn in Hp. apply not_elem_of_cons in Hp as [Hne Hp].
  cbn. rewrite IH by done. cbn.
  destruct (accepts r p' v'); [|reflexivity].
  by rewrite lookup_insert_ne.
Qed.

(** With every point written at most once, a point holds the value of the
    write the server took, and its old value after a write it rejected. *)
Lemma write_all_point ws p v : ∀ r,
  NoDup ws.*1 → (p, v) ∈ ws →
  points (write_all r ws) !! p =
    if accepts r p v then Some v else points r !! p.
Proof.
  induction ws as [|[p' v'] ws IH]; intros r Hnd Hin.
  - by apply elem_of_nil in Hin.
  - cbn in Hnd. apply NoDup_cons in Hnd as [Hp' Hnd].
    apply elem_of_cons in Hin as [Heq|Hin].
    + simplify_eq. cbn. rewrite write_all_untouched by done. cbn.
      destruct (accepts r p' v'); [|reflexivity].
      by rewrite lookup_insert_eq.
    + assert (Hne : p' ≠ p).
      { intros ->. apply Hp'. apply list_elem_of_fmap. by exists (p, v). }
      cbn. rewrite (IH _ Hnd Hin). cbn.
      destruct (accepts r p v); [reflexivity|].
      destruct (accepts r p' v'); [|reflexivity].
      by rewrite lookup_insert_ne.
Qed.

(** The loop issues the writes of the region in order and collects their
    completions. *)
Lemma set_items_runs items : ∀ status r,
  Forall (fun kv => kv.1 ∈ ["x"; "y"; "z"]) items →
  ROI.set_items items status r =
    (Return (status ++ (completion r <$> region_writes items)),
     write_all r (region_writes items)).
Proof.
  induction items as [|[d [lo size]] items IH]; intros status r Hax.
  - cbn. by rewrite app_nil_r.
  - apply Forall_cons in Hax as [Hd Hax]. cbn in Hd.
    destruct (axis_points_valid d Hd) as (pl & ps & Hpts).
    destruct (axis_points_getattr d pl ps Hpts) as (Hgl & Hgs & _).
    assert (Hrw : region_writes ((d, (lo, size)) :: items) =
                  (pl, lo) :: (ps, size) :: region_writes items).
    { unfold region_writes. cbn [flat_map]. unfold axis_writes at 1.
      cbn [fst snd]. rewrite Hpts. reflexivity. }
    rewrite Hrw. clear Hrw.
    cbn [ROI.set_items]. py_step.
    rewrite Hgl. cbn -[write_all region_writes fmap].
    rewrite Hgs. cbn -[write_all region_writes fmap].
    rewrite (IH _ _ Hax). f_equal. f_equal.
    rewrite <- app_assoc. reflexivity.
Qed.

Lemma axis_writes_axis item p v :
  (p, v) ∈ axis_writes item → axis_of_point p = Some item.1.
Proof.
  unfold axis_writes.
  destruct (axis_points item.1) as [[lo size]|] eqn:Hpts.
  - destruct (axis_points_getattr _ _ _ Hpts) as (_ & _ & _ & Hlo & Hsize).
    rewrite !elem_of_cons, elem_of_nil. intros [?|[?|[]]]; by simplify_eq.
  - by intros ?%elem_of_nil.
Qed.

Lemma region_writes_axis items p v :
  (p, v) ∈ region_writes items →
  ∃ d, d ∈ keys items ∧ axis_of_point p = Some d.
Proof.
  unfold region_writes. rewrite list_elem_of_In, in_flat_map.
  intros (item & Hitem%list_elem_of_In & Hin%list_elem_of_In).
  exists item.1. split.
  - apply list_elem_of_fmap. by exists item.
  - by apply (axis_writes_axis item p v).
Qed.

Lemma axis_writes_NoDup item : NoDup (axis_writes item).*1.
Proof.
  unfold axis_writes.
  destruct (axis_points item.1) as [[lo size]|] eqn:Hpts; [|constructor].
  destruct (axis_points_getattr _ _ _ Hpts) as (_ & _ & Hne & _).
  cbn. apply NoDup_cons. split.
  - by intros ?%list_elem_of_singleton.
  - apply NoDup_singleton.
Qed.

(** Distinct axes write distinct points. *)
Lemma region_writes_NoDup items :
  NoDup (keys items) → NoDup (region_writes items).*1.
Proof.
  induction items as [|item items IH]; intros Hnd; [constructor|].
  destruct item as [d value]. rewrite keys_cons in Hnd.
  apply NoDup_cons in Hnd as [Hd Hnd].
  change (region_writes ((d, value) :: items))
    with (axis_writes (d, value) ++ region_writes items).
  rewrite fmap_app. apply NoDup_app. split; [apply axis_writes_NoDup|].
  split; [|by apply IH].
  intros p ([p1 v1] & -> & H1)%list_elem_of_fmap
           ([p2 v2] & Heq & H2)%list_elem_of_fmap.
  cbn in Heq. subst p2.
  apply axis_writes_axis in H1.
  apply region_writes_axis in H2 as (d' & Hd' & Hax).
  cbn in H1. congruence.
Qed.

Lemma region_writes_length items :
  Forall (fun kv => kv.1 ∈ ["x"; "y"; "z"]) items →
  length (region_writes items) = 2 * length items.
Proof.
  induction 1 as [|[d value] items Hd _ IH]; [reflexivity|].
  change (region_writes ((d, value) :: items))
    with (axis_writes (d, value) ++ region_writes items).
  rewrite length_app, IH. cbn in Hd.
  destruct (axis_points_valid d Hd) as (pl & ps & Hpts).
  unfold axis_writes. cbn [fst]. rewrite Hpts. cbn. lia.
Qed.

Lemma success_foldl l : ∀ s,
  success (foldl AndStatus s l) = success s && forallb success l.
Proof.
  induction l as [|s' l IH]; intros s; cbn.
  - by rewrite andb_true_r.
  - rewrite IH. cbn. by rewrite andb_assoc.
Qed.

(** Reducing a list that is not empty returns a status, which succeeds
    exactly when all of the list do. *)
Lemma reduce_and_success l :
  l ≠ [] →
  ∃ st, ROI.reduce_and l = Return st ∧ success st = forallb success l.
Proof.
  destruct l as [|s l]; [done|]. intros _.
  exists (foldl AndStatus s l). split; [reflexivity|]. apply success_foldl.
Qed.

Lemma forallb_completion r ws :
  forallb success (completion r <$> ws) =
    forallb (fun pv => accepts r pv.1 pv.2) ws.
Proof. induction ws as [|[p v] ws IH]; cbn; [done|]. by rewrite IH. Qed.

(** C9. For a region that is not empty and names each of its axes, all
    among x, y and z, once, the setter issues for every axis the write of
    the minimum and then the write of the size, two per axis and no other,
    and returns a status that succeeds exactly when every write was taken.
    No write is undone: after the call each point holds the value written
    to it when the server took that write and its old value when the server
    rejected it, whatever became of the other writes; points the region
    does not name are left alone. *)
Theorem C9_roi_set_writes_and_conjunction
    (items : list (string * (Z * Z))) (r : Remote) :
  items ≠ [] →
  NoDup (keys items) →
  Forall (fun kv => kv.1 ∈ ["x"; "y"; "z"]) items →
  ∃ st,
    (ROI.set (Some items) r).1 = Return st ∧
    success st =
      forallb (fun pv => accepts r pv.1 pv.2) (region_writes items) ∧
    writes (ROI.set (Some items) r).2 = writes r ++ region_writes items ∧
    length (region_writes items) = 2 * length items ∧
    (∀ p v, (p, v) ∈ region_writes items →
       points (ROI.set (Some items) r).2 !! p =
         if accepts r p v then Some v else points r !! p) ∧
    (∀ p, p ∉ (region_writes items).*1 →
       points (ROI.set (Some items) r).2 !! p = points r !! p).
Proof.
  intros Hne Hnd Hax.
  assert (Hrun : ROI.set (Some items) r =
            (ROI.reduce_and (completion r <$> region_writes items),
             write_all r (region_writes items))).
  { unfold ROI.set. py_step. rewrite (set_items_runs items [] r Hax).
    reflexivity. }
  rewrite Hrun. cbn [fst snd].
  pose proof (region_writes_length items Hax) as Hlen.
  destruct (reduce_and_success (completion r <$> region_writes items))
    as (st & Hst & Hsuccess).
  { intros Hnil%fmap_nil_inv. rewrite Hnil in Hlen.
    destruct items; [done|]. cbn in Hlen. lia. }
  exists st. split; [exact Hst|].
  split; [by rewrite Hsuccess, forallb_completion|].
  split; [apply write_all_writes|].
  split; [exact Hlen|]. split.
  - intros p v Hin. apply write_all_point; [|done].
    by apply region_writes_NoDup.
  - intros p Hp. by apply write_all_untouched.
Qed.

(** The region [{'x': (10, 100)}] on a server that takes the minimum and
    rejects the size: two writes, a failed status, and the minimum holds
    10. *)
Example roi_set_partial_failure :
  let run := ROI.set (Some [("x", (10, 100))%Z]) rejects_size_x in
  run.1 = Return (AndStatus (SetStatus "MinX" 10 true)
                            (SetStatus "SizeX" 100 false)) ∧
  writes run.2 = [("MinX", 10%Z); ("SizeX", 100%Z)] ∧
  points run.2 !! "MinX" = Some 10%Z ∧
  points run.2 !! "SizeX" = None.
Proof. cbv zeta. repeat split; vm_compute; reflexivity. Qed.

Lemma C9_roi_set_writes_and_conjunction_witness :
  ∃ st,
    (ROI.set (Some [("x", (10, 100))%Z]) rejects_size_x).1 = Return st ∧
    success st = false.
Proof.
  destruct (C9_roi_set_writes_and_conjunction
              [("x", (10, 100))%Z] rejects_size_x)
    as (st & Hst & Hsuccess & _).
  - discriminate.
  - by apply (bool_decide_unpack _).
  - by apply (bool_decide_unpack _).
  - exists st. split; [exact Hst | exact Hsuccess].
Defined.

(** C10. With [region] equal to [None] the setter reads the local [status]
    that was never bound and raises [UnboundLocalError]; with an empty
    mapping it reduces an empty list and raises [TypeError].  Neither call
    returns a status, and neither issues a write. *)
Theorem C10_roi_set_none_and_empty_raise (r : Remote) :
  ROI.set None r = (Raise (UnboundLocalError "status"), r) ∧
  ROI.set (Some []) r = (Raise TypeError, r).
Proof. split; reflexivity. Qed.

(** * Further properties of the module *)

(** ** Pixel count *)

Lemma foldl_mul_product l : ∀ a, foldl Z.mul a l = (a * product l)%Z.
Proof.
  induction l as [|x l IH]; intros a; cbn.
  - lia.
  - rewrite IH. unfold product. cbn. lia.
Qed.

Lemma array_pixels_runs w size d :
  array_size_get w = Return size →
  ndimensions_get w = Return d →
  Array.array_pixels w =
    (if (d =? 0)%Z then Return 0%Z
     else match size with
          | [] => Raise (External "IndexError")
          | x :: _ => Return (x * product (slice_from_1 size d))%Z
          end,
     with_array_read read_ndimensions (with_array_read read_array_size w)).
Proof.
  intros Hs Hd. unfold Array.array_pixels, Array.array_size, Array.ndimensions.
  py_step. cbn -[slice_from_1 Z.eqb]. rewrite Hs, Hd.
  destruct (d =? 0)%Z; [reflexivity|].
  destruct size as [|x size]; cbn -[slice_from_1]; [reflexivity|].
  by rewrite foldl_mul_product.
Qed.

Lemma slice_from_1_cons x l (k : nat) :
  (x * product (drop 1 (take (S k) (x :: l))))%Z = product (take (S k) (x :: l)).
Proof. reflexivity. Qed.

Lemma array_pixels_leading w size d :
  array_size_get w = Return size →
  ndimensions_get w = Return d →
  (0 < d)%Z →
  size ≠ [] →
  (Array.array_pixels w).1 = Return (product (take (Z.to_nat d) size)) ∧
  array_reads (Array.array_pixels w).2 =
    array_reads w ++ [read_array_size; read_ndimensions].
Proof.
  intros Hs Hd Hpos Hne.
  rewrite (array_pixels_runs w size d Hs Hd).
  destruct (Z.eqb_spec d 0) as [->|_]; [lia|].
  destruct size as [|x l]; [done|]. cbn [fst snd].
  split; [|cbn; by rewrite <- app_assoc].
  f_equal. unfold slice_from_1.
  destruct (Z.ltb_spec d 0) as [?|_]; [lia|].
  set (n := Z.of_nat (length (x :: l))).
  destruct (Z.to_nat d) as [|k] eqn:Hk; [lia|].
  destruct (Z.le_gt_cases d n) as [Hle|Hgt].
  - rewrite Z.min_l, Hk by lia. apply slice_from_1_cons.
  - rewrite Z.min_r by lia. unfold n. rewrite Nat2Z.id.
    rewrite !take_ge by (cbn [length] in *; lia).
    unfold product. cbn. reflexivity.
Qed.

(** X1. With a positive number of dimensions and sizes to read,
    [array_pixels] is the product of the first [ndimensions] sizes, and of
    all the sizes when there are no more than [ndimensions] of them; it
    reads the sizes once and the number of dimensions once. *)
Theorem X1_array_pixels_is_product_of_leading_sizes
    (w : ArrayWorld) (size : list Z) (d : Z) :
  array_size_get w = Return size →
  ndimensions_get w = Return d →
  (0 < d)%Z →
  size ≠ [] →
  (Array.array_pixels w).1 = Return (product (take (Z.to_nat d) size)) ∧
  ((Z.of_nat (length size) ≤ d)%Z →
   (Array.array_pixels w).1 = Return (product size)) ∧
  array_reads (Array.array_pixels w).2 =
    array_reads w ++ [read_array_size; read_ndimensions].
Proof.
  intros Hs Hd Hpos Hne.
  rewrite (array_pixels_runs w size d Hs Hd).
  destruct (Z.eqb_spec d 0) as [->|_]; [lia|].
  destruct size as [|x l]; [done|]. cbn [fst snd].
  assert (Hprod : (x * product (slice_from_1 (x :: l) d))%Z =
                  product (take (Z.to_nat d) (x :: l))).
  { unfold slice_from_1.
    destruct (Z.ltb_spec d 0) as [?|_]; [lia|].
    set (n := Z.of_nat (length (x :: l))).
    destruct (Z.to_nat d) as [|k] eqn:Hk; [lia|].
    destruct (Z.le_gt_cases d n) as [Hle|Hgt].
    - rewrite Z.min_l, Hk by lia. apply slice_from_1_cons.
    - rewrite Z.min_r by lia. unfold n. rewrite Nat2Z.id.
      rewrite !take_ge by (cbn [length] in *; lia).
      unfold product. cbn. reflexivity. }
  split; [by rewrite Hprod|]. split.
  - intros Hall. rewrite Hprod. rewrite take_ge by lia. reflexivity.
  - cbn. by rewrite <- app_assoc.
Qed.

Lemma X1_array_pixels_is_product_of_leading_sizes_witness :
  (Array.array_pixels (array_world [480; 640; 0]%Z 2 [])).1 =
    Return 307200%Z.
Proof.
  refine (proj1
    (X1_array_pixels_is_product_of_leading_sizes
       (array_world [480; 640; 0]%Z 2 [])
       [480; 640; 0]%Z 2%Z eq_refl eq_refl _ _)); [lia | discriminate].
Defined.

(** X2. [array_pixels] is 0 when the number of dimensions is 0, whatever
    the sizes are and even when there are none; with another number of
    dimensions and no sizes it raises [IndexError]; a negative number of
    dimensions counts the sizes from the end, and never takes fewer than
    the first; and when reading the sizes raises, the exception leaves the
    property before the number of dimensions is read. *)
Theorem X2_array_pixels_edge_cases (w : ArrayWorld) :
  (∀ size, array_size_get w = Return size →
           ndimensions_get w = Return 0%Z →
           (Array.array_pixels w).1 = Return 0%Z) ∧
  (∀ d, array_size_get w = Return [] →
        ndimensions_get w = Return d →
        d ≠ 0%Z →
        (Array.array_pixels w).1 = Raise (External "IndexError")) ∧
  (∀ size d, array_size_get w = Return size →
             ndimensions_get w = Return d →
             (d < 0)%Z →
             size ≠ [] →
             (Array.array_pixels w).1 =
               Return (product
                         (take (Z.to_nat
                                  (Z.max 1 (d + Z.of_nat (length size))))
                            size))) ∧
  (∀ e, array_size_get w = Raise e →
        Array.array_pixels w = (Raise e, with_array_read read_array_size w)).
Proof.
  repeat split.
  - intros size Hs Hd. by rewrite (array_pixels_runs w size 0 Hs Hd).
  - intros d Hs Hd Hne. rewrite (array_pixels_runs w [] d Hs Hd).
    by destruct (Z.eqb_spec d 0).
  - intros size d Hs Hd Hneg Hne.
    rewrite (array_pixels_runs w size d Hs Hd).
    destruct (Z.eqb_spec d 0) as [->|_]; [lia|].
    destruct size as [|x l]; [done|]. cbn [fst]. f_equal.
    unfold slice_from_1.
    destruct (Z.ltb_spec d 0) as [_|?]; [|lia].
    set (n := Z.of_nat (length (x :: l))).
    destruct (Z.le_gt_cases (d + n) 0) as [Hle|Hgt].
    + rewrite (Z.max_r (d + n) 0), (Z.max_l 1 (d + n)) by lia.
      change (Z.to_nat 1) with 1%nat. change (Z.to_nat 0) with 0%nat.
      unfold product. rewrite take_0. reflexivity.
    + rewrite (Z.max_l (d + n) 0), (Z.max_r 1 (d + n)) by lia.
      destruct (Z.to_nat (d + n)) as [|k] eqn:Hk; [lia|].
      apply slice_from_1_cons.
  - intros e He. unfold Array.array_pixels, Array.array_size.
    py_step. cbn. by rewrite He.
Qed.

Lemma X2_array_pixels_edge_cases_witness :
  (Array.array_pixels (array_world [] 0 [])).1 = Return 0%Z ∧
  (Array.array_pixels (array_world [4; 5; 6]%Z (-1) [])).1 = Return 20%Z.
Proof.
  split.
  - exact (proj1 (X2_array_pixels_edge_cases (array_world [] 0 []))
             [] eq_refl eq_refl).
  - refine (proj1 (proj2 (proj2
      (X2_array_pixels_edge_cases (array_world [4; 5; 6]%Z (-1) []))))
      [4; 5; 6]%Z (-1)%Z eq_refl eq_refl _ _); [lia | discriminate].
Defined.

(** ** The image *)

Section ImageFacts.
Context {ndarray : Type} (reshape : list Z → list Z → result ndarray).

Lemma image_runs w size :
  array_size_get w = Return size →
  size ≠ [0; 0; 0]%Z →
  size ≠ [] →
  Array.image ndarray reshape w =
    match Array.array_pixels (with_array_read read_array_size w) with
    | (Return count, w') =>
        (match array_data_get w count with
         | Return data => reshape data (image_shape size)
         | Raise e => Raise e
         end, with_array_read (read_array_data count) w')
    | (Raise e, w') => (Raise e, w')
    end.
Proof.
  intros Hs Hz Hne. unfold Array.image, Array.array_size, Array.array_data.
  py_step. cbn -[Array.array_pixels]. rewrite Hs.
  rewrite bool_decide_eq_false_2 by done.
  unfold py_last, image_shape.
  destruct (last size) as [final|] eqn:Hlast.
  2:{ apply last_None in Hlast. done. }
  cbn -[Array.array_pixels].
  destruct (Array.array_pixels _) as [[count|e] w'] eqn:Hpix; [|reflexivity].
  assert (Hget : array_data_get w' = array_data_get w).
  { unfold Array.array_pixels, Array.array_size, Array.ndimensions in Hpix.
    py_step. cbn in Hpix. rewrite Hs in Hpix.
    destruct (ndimensions_get w) as [d|e]; [|done].
    destruct (d =? 0)%Z; [by simplify_eq|].
    destruct (py_first size); by simplify_eq. }
  rewrite Hget.
  destruct (Z.eqb_spec final 0) as [->|Hf].
  - destruct (array_data_get w count); reflexivity.
  - destruct final; try done; destruct (array_data_get w count); reflexivity.
Qed.

Lemma image_shape_take size :
  image_shape size = take (length (image_shape size)) size.
Proof.
  unfold image_shape. destruct (last size) as [[| |]|];
    rewrite ?firstn_all; try reflexivity.
  rewrite (removelast_firstn_len size).
  rewrite length_take. f_equal. lia.
Qed.

(** X3. [image] raises [RuntimeError] when the sizes read (0, 0, 0), and
    then reads nothing else.  Otherwise, when the number of dimensions is
    the number of sizes left once a last size of 0 is dropped, it asks the
    array data for exactly the product of those sizes and reshapes what it
    gets to them; an exception of the data read is passed on. *)
Theorem X3_image_count_matches_shape (w : ArrayWorld) :
  (array_size_get w = Return [0; 0; 0]%Z →
   Array.image ndarray reshape w =
     (Raise invalid_image, with_array_read read_array_size w)) ∧
  (∀ size d,
     array_size_get w = Return size →
     size ≠ [0; 0; 0]%Z →
     ndimensions_get w = Return d →
     (0 < d)%Z →
     d = Z.of_nat (length (image_shape size)) →
     (Array.image ndarray reshape w).1 =
       match array_data_get w (product (image_shape size)) with
       | Return data => reshape data (image_shape size)
       | Raise e => Raise e
       end ∧
     array_reads (Array.image ndarray reshape w).2 =
       array_reads w ++
       [read_array_size; read_array_size; read_ndimensions;
        read_array_data (product (image_shape size))]).
Proof.
  split.
  - intros Hs. unfold Array.image, Array.array_size. py_step. cbn.
    rewrite Hs. reflexivity.
  - intros size d Hs Hz Hd Hpos Hlen.
    assert (Hne : size ≠ []).
    { intros ->. cbn in Hlen. lia. }
    rewrite (image_runs w size Hs Hz Hne).
    set (w1 := with_array_read read_array_size w).
    destruct (array_pixels_leading w1 size d Hs Hd Hpos Hne) as [Hcount Hreads].
    destruct (Array.array_pixels w1) as [[count|e] w'] eqn:Hpix;
      cbn [fst snd] in *; [|done].
    assert (count = product (image_shape size)) as ->.
    { injection Hcount as ->. rewrite Hlen, Nat2Z.id.
      by rewrite <- image_shape_take. }
    split; [reflexivity|].
    cbn. rewrite Hreads. cbn. by rewrite <- !app_assoc.
Qed.
End ImageFacts.

Lemma X3_image_count_matches_shape_witness :
  (Array.image (list Z * list Z) (fun data shape => Return (shape, data))
     (array_world [2; 3; 0]%Z 2 [1; 2; 3; 4; 5; 6; 7; 8]%Z)).1 =
    Return ([2; 3]%Z, [1; 2; 3; 4; 5; 6]%Z).
Proof.
  refine (proj1 (proj2
    (X3_image_count_matches_shape (fun data shape => Return (shape, data))
       (array_world [2; 3; 0]%Z 2 [1; 2; 3; 4; 5; 6; 7; 8]%Z))
    [2; 3; 0]%Z 2%Z eq_refl _ eq_refl _ eq_refl)); [discriminate | lia].
Defined.

(** A frame whose last size is 0 while three dimensions are announced:
    the count is 0, whatever the shape. *)
Example image_of_inconsistent_frame :
  (Array.image (list Z * list Z) (fun data shape => Return (shape, data))
     (array_world [2; 3; 0]%Z 3 [1; 2; 3; 4; 5; 6; 7; 8]%Z)).1 =
    Return ([2; 3]%Z, []).
Proof. reflexivity. Qed.

(** ** Registration *)

Section SetitemFacts.
Context {K V : Type} `{EqDecision K}.
Implicit Types (d : list (K * V)) (k : K) (v : V).

Lemma od_setitem_absent k v d :
  k ∉ keys d → od_setitem k v d = d ++ [(k, v)].
Proof.
  induction d as [|[k0 v0] d IH]; intros Hk; [reflexivity|].
  rewrite keys_cons in Hk. apply not_elem_of_cons in Hk as [Hne Hk].
  cbn. rewrite bool_decide_eq_false_2 by done. by rewrite IH.
Qed.

Lemma od_setitem_length_present k v d :
  k ∈ keys d → length (od_setitem k v d) = length d.
Proof.
  induction d as [|[k0 v0] d IH]; intros Hk.
  - by apply elem_of_nil in Hk.
  - cbn. case_bool_decide as H0; [reflexivity|].
    rewrite keys_cons in Hk. apply elem_of_cons in Hk as [->|Hk]; [done|].
    cbn. by rewrite IH.
Qed.

Lemma od_setitem_NoDup k v d : NoDup (keys d) → NoDup (keys (od_setitem k v d)).
Proof.
  intros Hnd. rewrite keys_setitem_order.
  case_bool_decide as Hin; [done|].
  apply NoDup_app. split; [done|]. split.
  - intros x Hx ->%list_elem_of_singleton. done.
  - apply NoDup_singleton.
Qed.
End SetitemFacts.

Lemma register_plugin_runs c s :
  register_plugin c s =
    (Return c, with_plugin_class (od_setitem (_plugin_type c) c) s).
Proof. reflexivity. Qed.

(** X4. [register_plugin] hands back the class it was given; afterwards
    the registry finds that class under its declared type and everything
    else where it was.  A type that was registered before keeps its place
    in the iteration order and the registry its length; a new type goes to
    the end. *)
Theorem X4_register_plugin_lookup (c : PluginClass) (s : Process) :
  let s' := (register_plugin c s).2 in
  (register_plugin c s).1 = Return c ∧
  od_get (_plugin_type c) (_plugin_class s') = Some c ∧
  (∀ k, k ≠ _plugin_type c →
        od_get k (_plugin_class s') = od_get k (_plugin_class s)) ∧
  (_plugin_type c ∈ keys (_plugin_class s) →
   keys (_plugin_class s') = keys (_plugin_class s) ∧
   length (_plugin_class s') = length (_plugin_class s)) ∧
  (_plugin_type c ∉ keys (_plugin_class s) →
   _plugin_class s' = _plugin_class s ++ [(_plugin_type c, c)]) ∧
  caget_calls s' = caget_calls s.
Proof.
  rewrite register_plugin_runs.
  cbn [fst snd _plugin_class caget_calls with_plugin_class]. repeat split.
  - apply od_get_setitem_eq.
  - intros k Hk. by apply od_get_setitem_ne.
  - rewrite keys_setitem_order. by rewrite bool_decide_eq_true_2.
  - by apply od_setitem_length_present.
  - apply od_setitem_absent.
Qed.

Lemma X4_register_plugin_lookup_witness :
  keys (_plugin_class
          (register_plugin
             {| __name__ := "MyStats"; _plugin_type := Some "NDPluginStats";
                _suffix_re := Some "Stats\d:" |}
             (module_loaded (fun _ _ => None))).2) =
    keys (_plugin_class (module_loaded (fun _ _ => None))).
Proof.
  refine (proj1 (proj1 (proj2 (proj2 (proj2
    (X4_register_plugin_lookup
       {| __name__ := "MyStats"; _plugin_type := Some "NDPluginStats";
          _suffix_re := Some "Stats\d:" |}
       (module_loaded (fun _ _ => None)))))) _)).
  by apply (bool_decide_unpack _).
Defined.

Lemma register_keeps_invariant c s :
  keyed_by_type (_plugin_class s) → NoDup (keys (_plugin_class s)) →
  keyed_by_type (_plugin_class (register_plugin c s).2) ∧
  NoDup (keys (_plugin_class (register_plugin c s).2)).
Proof.
  intros Hk Hnd. rewrite register_plugin_runs.
  cbn [fst snd _plugin_class with_plugin_class].
  split; [|by apply od_setitem_NoDup].
  unfold keyed_by_type in *. clear Hnd.
  induction Hk as [|[k0 c0] reg H0 Hk IH]; cbn.
  - by repeat constructor.
  - case_bool_decide; constructor; done.
Qed.

(** X5. Whatever classes are registered and in whatever order, starting
    from a registry that is empty, every entry of the registry stands under
    the declared type of its class and no type stands twice; the registry
    never holds more entries than classes were registered. *)
Theorem X5_registry_invariant (cs : list PluginClass) (s : Process) :
  _plugin_class s = [] →
  keyed_by_type (_plugin_class (register_all cs s)) ∧
  NoDup (keys (_plugin_class (register_all cs s))) ∧
  (length (_plugin_class (register_all cs s)) ≤ length cs)%nat.
Proof.
  intros Hempty.
  assert (Hgen : ∀ cs s,
    keyed_by_type (_plugin_class s) → NoDup (keys (_plugin_class s)) →
    keyed_by_type (_plugin_class (register_all cs s)) ∧
    NoDup (keys (_plugin_class (register_all cs s))) ∧
    (length (_plugin_class (register_all cs s)) ≤
     length (_plugin_class s) + length cs)%nat).
  { clear. induction cs as [|c cs IH]; intros s Hk Hnd.
    - cbn. repeat split; [done..|lia].
    - destruct (register_keeps_invariant c s Hk Hnd) as [Hk' Hnd'].
      destruct (IH _ Hk' Hnd') as (? & ? & Hlen).
      change (register_all (c :: cs) s)
        with (register_all cs (register_plugin c s).2).
      repeat split; [done..|].
      etrans; [exact Hlen|]. rewrite register_plugin_runs.
      cbn [fst snd _plugin_class with_plugin_class].
      destruct (decide (_plugin_type c ∈ keys (_plugin_class s))) as [Hin|Hin].
      + rewrite od_setitem_length_present by done. cbn [length]. lia.
      + rewrite od_setitem_absent by done. rewrite length_app. cbn [length]. lia. }
  destruct (Hgen cs s) as (? & ? & Hlen).
  - rewrite Hempty. constructor.
  - rewrite Hempty. constructor.
  - rewrite Hempty in Hlen. done.
Qed.

Lemma X5_registry_invariant_witness :
  NoDup (keys (_plugin_class
                 (register_all registered_classes
                    {| _plugin_class := []; caget := fun _ _ => None;
                       caget_calls := [] |}))).
Proof.
  exact (proj1 (proj2
    (X5_registry_invariant registered_classes
       {| _plugin_class := []; caget := fun _ _ => None; caget_calls := [] |}
       eq_refl))).
Defined.

(** ** Discovery and validation together *)

Lemma startswith_split_space_0 report :
  startswith report (split_space_0 report) = true.
Proof.
  unfold startswith. induction report as [|c r IH]; cbn; [reflexivity|].
  destruct (Ascii.eqb c " "%char); cbn; [reflexivity|].
  destruct (Ascii.ascii_dec c c) as [_|Hne]; [exact IH | done].
Qed.

Lemma keyed_lookup reg k c :
  keyed_by_type reg → od_get k reg = Some c → _plugin_type c = k.
Proof.
  unfold keyed_by_type. induction 1 as [|[k0 c0] reg H0 _ IH]; cbn; [done|].
  case_bool_decide as Hk; [|exact IH].
  intros [= ->]. cbn in H0. congruence.
Qed.

(** X6. In a registry whose entries stand under the declared types of
    their classes, a class that discovery finds by asking for the type
    report declares the type the report names before its first space, and a
    plugin of that class is confirmed by the connection callback on the
    same report. *)
Theorem X6_query_discovery_passes_validation
    (prefix : string) (timeout : option Q) (s : Process)
    (report : string) (c : PluginClass) :
  keyed_by_type (_plugin_class s) →
  Forall (fun kc => re_search (_suffix_re kc.2) prefix = Return false)
    (_plugin_class s) →
  caget s (prefix +:+ "PluginType_RBV") (default 2.0%Q timeout) =
    Some report →
  (get_areadetector_plugin_class prefix timeout s).1 = Return c →
  _plugin_type c = Some (split_space_0 report) ∧
  ∀ repr w,
    cls (self w) = c →
    _misconfigured
      (self (run_event repr w (Connection true (Return report)))) =
      Some false.
Proof.
  intros Hkeyed Hnone Hca Hfound.
  assert (Ht : _plugin_type c = Some (split_space_0 report)).
  { unfold get_areadetector_plugin_class, cl_caget in Hfound. py_step.
    rewrite plugin_from_pvname_pure,
      (plugin_from_pvname_none prefix _ Hnone) in Hfound.
    cbn in Hfound. unfold default_timeout in Hfound. rewrite Hca in Hfound.
    cbn in Hfound.
    destruct (od_get _ _) as [c'|] eqn:Hget; cbn in Hfound; [|done].
    injection Hfound as ->. by apply (keyed_lookup _ _ _ Hkeyed Hget). }
  split; [exact Ht|].
  intros repr w <-.
  rewrite (connection_state repr w _ true (Return report) Ht).
  unfold verdict. by rewrite startswith_split_space_0.
Qed.

Lemma X6_query_discovery_passes_validation_witness :
  _misconfigured
    (self (run_event quote
             (constructed HDF5Plugin "XF:H5:" None [] (Raise DestroyedError))
             (Connection true (Return "NDFileHDF5 ver1.9.1")))) =
    Some false.
Proof.
  refine (proj2
    (X6_query_discovery_passes_validation "XF:H5:" None
       (module_loaded (fun _ _ => Some "NDFileHDF5 ver1.9.1"))
       "NDFileHDF5 ver1.9.1" HDF5Plugin _ _ eq_refl eq_refl)
    quote (constructed HDF5Plugin "XF:H5:" None [] (Raise DestroyedError))
    eq_refl); repeat constructor.
Defined.

(** ** Pattern discovery searches the whole name *)

Lemma match_here_app p : ∀ s b,
  match_here p s = true → match_here p (s +:+ b) = true.
Proof.
  induction p as [|a p IH]; intros s b; [done|].
  destruct s as [|c s]; [done|].
  change (String c s +:+ b) with (String c (s +:+ b)). cbn.
  intros [Ha Hp]%andb_true_iff. rewrite Ha. cbn. by apply IH.
Qed.

Lemma match_anywhere_app_r p : ∀ s b,
  match_anywhere p s = true → match_anywhere p (s +:+ b) = true.
Proof.
  induction s as [|c s IH]; intros b.
  - cbn. rewrite orb_false_r. intros Hm.
    pose proof (match_here_app p EmptyString b Hm) as Hb.
    change (EmptyString +:+ b) with b in *.
    destruct b; cbn; by rewrite Hb.
  - change (String c s +:+ b) with (String c (s +:+ b)).
    cbn [match_anywhere]. intros [Hh|Ht]%orb_true_iff.
    + pose proof (match_here_app p (String c s) b Hh) as Hb.
      change (String c s +:+ b) with (String c (s +:+ b)) in Hb.
      by rewrite Hb.
    + rewrite (IH b Ht). apply orb_true_r.
Qed.

Lemma match_anywhere_app_l p s : ∀ a,
  match_anywhere p s = true → match_anywhere p (a +:+ s) = true.
Proof.
  induction a as [|c a IH]; intros Hm; [done|].
  change (String c a +:+ s) with (String c (a +:+ s)).
  cbn [match_anywhere]. rewrite (IH Hm). apply orb_true_r.
Qed.

Lemma re_search_extends pattern s a b :
  re_search pattern s = Return true →
  re_search pattern (a +:+ s +:+ b) = Return true.
Proof.
  unfold re_search. destruct pattern as [p|]; [|done].
  destruct (re_compile p) as [atoms|]; [|done].
  intros [= Hm]. f_equal.
  by apply match_anywhere_app_l, match_anywhere_app_r.
Qed.

Lemma re_search_answers pattern s b s' :
  re_search pattern s = Return b → ∃ b', re_search pattern s' = Return b'.
Proof.
  unfold re_search. destruct pattern as [p|]; [|done].
  destruct (re_compile p); [eauto | done].
Qed.

Lemma plain_pattern_answers pattern s :
  plain_pattern pattern = true → ∃ b, re_search pattern s = Return b.
Proof.
  unfold plain_pattern, re_search. destruct pattern as [p|]; [|done].
  intros [atoms Hc]%bool_decide_eq_true. rewrite Hc. eauto.
Qed.

(** The first class whose pattern finds the longer name stands at the place
    of the class that resolved the shorter one, or before it. *)
Lemma first_match_of_longer_name
    (before : list (option string * PluginClass)) :
  ∀ (k : option string) (c : PluginClass) after (pv a b : string),
  Forall (fun kc => plain_pattern (_suffix_re kc.2) = true) before →
  re_search (_suffix_re c) pv = Return true →
  ∃ i k' c',
    (before ++ (k, c) :: after) !! i = Some (k', c') ∧
    (i ≤ length before)%nat ∧
    re_search (_suffix_re c') (a +:+ pv +:+ b) = Return true ∧
    Forall (fun kc => re_search (_suffix_re kc.2) (a +:+ pv +:+ b) =
                      Return false)
      (take i (before ++ (k, c) :: after)).
Proof.
  induction before as [|[k0 c0] before IH]; intros k c after pv a b Hplain Hc.
  - exists 0%nat, k, c. repeat split.
    + cbn. lia.
    + by apply re_search_extends.
    + constructor.
  - apply Forall_cons in Hplain as [H0 Hplain]. cbn in H0.
    destruct (plain_pattern_answers _ (a +:+ pv +:+ b) H0) as [[] Hs0].
    + exists 0%nat, k0, c0. repeat split.
      * cbn. lia.
      * exact Hs0.
      * constructor.
    + destruct (IH k c after pv a b Hplain Hc)
        as (i & k' & c' & Hi & Hle & Hs & Hno).
      exists (S i), k', c'. repeat split.
      * exact Hi.
      * cbn. lia.
      * exact Hs.
      * cbn [app take]. constructor; [exact Hs0 | exact Hno].
Qed.

(** X7. Pattern discovery looks for the pattern anywhere in the name, not
    at its end.  Take a registry in which the patterns up to and including
    that of a class [c] are made of literal characters and [\d] only, with
    no anchor, as the patterns of the module's classes are, and a name that
    [c] resolves: no class before [c] finds its pattern in the name, and
    [c] does.  Then every name that contains this name is resolved by a
    pattern too: to the first class of the registry whose pattern is found
    in the longer name, which is [c] or a class registered before [c]; it
    is [c] when no class before [c] finds its pattern in the longer name.
    Discovery with fallback returns that class and asks for no type
    report. *)
Theorem X7_pattern_search_is_not_anchored
    (before : list (option string * PluginClass)) (k : option string)
    (c : PluginClass) (after : list (option string * PluginClass))
    (pv a b : string) :
  Forall (fun kc => plain_pattern (_suffix_re kc.2) = true)
    (before ++ [(k, c)]) →
  Forall (fun kc => re_search (_suffix_re kc.2) pv = Return false) before →
  re_search (_suffix_re c) pv = Return true →
  let items := before ++ (k, c) :: after in
  let name := a +:+ pv +:+ b in
  plugin_from_pvname_items items pv = Return (Some c) ∧
  (∃ i k' c',
     items !! i = Some (k', c') ∧
     (i ≤ length before)%nat ∧
     re_search (_suffix_re c') name = Return true ∧
     Forall (fun kc => re_search (_suffix_re kc.2) name = Return false)
       (take i items) ∧
     plugin_from_pvname_items items name = Return (Some c') ∧
     ∀ timeout s,
       _plugin_class s = items →
       get_areadetector_plugin_class name timeout s = (Return c', s)) ∧
  (Forall (fun kc => re_search (_suffix_re kc.2) name = Return false) before →
   plugin_from_pvname_items items name = Return (Some c) ∧
   ∀ timeout s,
     _plugin_class s = items →
     get_areadetector_plugin_class name timeout s = (Return c, s)).
Proof.
  intros Hplain Hbefore Hc. cbv zeta.
  apply Forall_app in Hplain as [Hplain _].
  assert (Hget : ∀ c' timeout s,
            plugin_from_pvname_items (before ++ (k, c) :: after)
              (a +:+ pv +:+ b) = Return (Some c') →
            _plugin_class s = before ++ (k, c) :: after →
            get_areadetector_plugin_class (a +:+ pv +:+ b) timeout s =
              (Return c', s)).
  { intros c' timeout s Hf Hs. unfold get_areadetector_plugin_class. py_step.
    rewrite plugin_from_pvname_pure, Hs, Hf. reflexivity. }
  split; [by apply plugin_from_pvname_first|]. split.
  - destruct (first_match_of_longer_name before k c after pv a b Hplain Hc)
      as (i & k' & c' & Hi & Hle & Hs & Hno).
    assert (Hf : plugin_from_pvname_items (before ++ (k, c) :: after)
                   (a +:+ pv +:+ b) = Return (Some c')).
    { rewrite <- (take_drop_middle _ i (k', c') Hi).
      by apply plugin_from_pvname_first. }
    exists i, k', c'. repeat split; try done.
    intros timeout s Hs'. by apply Hget.
  - intros Hno.
    assert (Hf : plugin_from_pvname_items (before ++ (k, c) :: after)
                   (a +:+ pv +:+ b) = Return (Some c)).
    { apply plugin_from_pvname_first; [exact Hno|].
      by apply re_search_extends. }
    split; [exact Hf|]. intros timeout s Hs'. by apply Hget.
Qed.

(** A region-of-interest plugin under a prefix that names a statistics
    plugin on the way is resolved by a pattern, to a class registered no
    later than the region-of-interest class. *)
Lemma X7_pattern_search_is_not_anchored_witness :
  ∃ i k' c',
    _plugin_class (module_loaded (fun _ _ => None)) !! i = Some (k', c') ∧
    (i ≤ 5)%nat ∧
    plugin_from_pvname_items
      (_plugin_class (module_loaded (fun _ _ => None)))
      ("XF:Stats1:" +:+ "ROI1:" +:+ EmptyString) = Return (Some c').
Proof.
  destruct (X7_pattern_search_is_not_anchored
              [(Some "NDPluginStdArrays", ImagePlugin);
               (Some "NDPluginStats", StatsPlugin);
               (Some "NDPluginColorConvert", ColorConvPlugin);
               (Some "NDPluginProcess", ProcessPlugin);
               (Some "NDPluginOverlay", OverlayPlugin)]
              (Some "NDPluginROI") ROIPlugin
              [(Some "NDPluginTransform", TransformPlugin);
               (Some "NDFileNetCDF", NetCDFPlugin);
               (Some "NDFileTIFF", TIFFPlugin);
               (Some "NDFileJPEG", JPEGPlugin);
               (Some "NDPluginNexus", NexusPlugin);
               (Some "NDFileHDF5", HDF5Plugin);
               (Some "NDFileMagick", MagickPlugin)]
              "ROI1:" "XF:Stats1:" EmptyString)
    as (_ & (i & k' & c' & Hi & Hle & _ & _ & Hf & _) & _).
  - repeat constructor.
  - repeat constructor.
  - reflexivity.
  - exists i, k', c'. split; [exact Hi|]. split; [exact Hle | exact Hf].
Defined.

Example nested_prefix_resolves_to_earlier_class :
  plugin_from_pvname_items
    (_plugin_class (module_loaded (fun _ _ => None))) "XF:Stats1:ROI1:" =
    Return (Some StatsPlugin).
Proof. reflexivity. Qed.

(** X8. A class without a pattern in the registry makes pattern discovery
    raise [TypeError] for every name that no class before it matches:
    after such a class is registered under a new type, names that matched
    nothing are no longer resolved by the type report, and channel access
    is not asked. *)
Theorem X8_class_without_pattern_breaks_discovery
    (c : PluginClass) (s : Process) (pv : string) (timeout : option Q) :
  _suffix_re c = None →
  _plugin_type c ∉ keys (_plugin_class s) →
  Forall (fun kc => re_search (_suffix_re kc.2) pv = Return false)
    (_plugin_class s) →
  (plugin_from_pvname pv (register_plugin c s).2).1 = Raise TypeError ∧
  get_areadetector_plugin_class pv timeout (register_plugin c s).2 =
    (Raise TypeError, (register_plugin c s).2).
Proof.
  intros Hre Hnew Hnone.
  assert (Hitems : plugin_from_pvname_items
                     (_plugin_class (register_plugin c s).2) pv =
                   Raise TypeError).
  { rewrite register_plugin_runs.
    cbn [fst snd _plugin_class with_plugin_class].
    rewrite od_setitem_absent by done.
    induction Hnone as [|[k0 c0] reg H0 _ IH]; cbn.
    - by rewrite Hre.
    - cbn in H0. rewrite H0. apply IH.
      rewrite keys_cons in Hnew. by apply not_elem_of_cons in Hnew as [_ ?]. }
  split.
  - rewrite plugin_from_pvname_pure. exact Hitems.
  - unfold get_areadetector_plugin_class. py_step.
    rewrite plugin_from_pvname_pure, Hitems. reflexivity.
Qed.

Lemma X8_class_without_pattern_breaks_discovery_witness :
  (plugin_from_pvname "XF:H5:"
     (register_plugin FilePlugin (module_loaded (fun _ _ => None))).2).1 =
    Raise TypeError.
Proof.
  refine (proj1
    (X8_class_without_pattern_breaks_discovery FilePlugin
       (module_loaded (fun _ _ => None)) "XF:H5:" None eq_refl _ _)).
  - by apply (bool_decide_unpack _).
  - repeat constructor.
Defined.

(** ** Staging with the state known *)

(** X9. Staging a plugin whose state is confirmed does nothing but call
    [super().stage()]: it neither waits for the type-report point nor reads
    it, and leaves plugin and log as they were.  So does staging a plugin
    of a class without a declared type once it is constructed. *)
Theorem X9_staging_confirmed_plugin_reads_nothing
    (repr : string → string) (w : World) :
  (_misconfigured (self w) = Some false →
   remote_super_stage w = Return tt →
   PluginBase.stage repr w = (Return tt, with_call call_super_stage w)) ∧
  (_plugin_type (cls (self w)) = None →
   remote_super_stage w = Return tt →
   PluginBase.stage repr (PluginBase.__init__ w).2 =
     (Return tt, with_call call_super_stage (PluginBase.__init__ w).2)).
Proof.
  split.
  - intros Hm Hs. by rewrite (stage_known repr w false Hm Hs).
  - intros Ht Hs. destruct (init_state w) as [Hm _].
    rewrite Ht in Hm.
    apply (stage_known repr _ false Hm).
    rewrite init_runs. exact Hs.
Qed.

Lemma X9_staging_confirmed_plugin_reads_nothing_witness :
  calls (PluginBase.stage quote
           (constructed PluginBase_class "XF:P1:" None []
              (Raise DestroyedError))).2 = [call_super_stage].
Proof.
  exact (f_equal (fun r => calls r.2)
    (proj2 (X9_staging_confirmed_plugin_reads_nothing quote
              (allocated PluginBase_class "XF:P1:" None []
                 (Raise DestroyedError)))
       eq_refl eq_refl)).
Defined.

(** X10. Staging a plugin whose state is confirmed-bad always raises and
    never waits for the connection: after [super().stage()] it reads the
    type report once for the message and raises
    [PluginMisconfigurationError]; when that read raises, its exception is
    what leaves [stage] in place of the misconfiguration error.  The state
    stays confirmed-bad either way. *)
Theorem X10_staging_misconfigured_plugin_raises
    (repr : string → string) (w : World) :
  _misconfigured (self w) = Some true →
  remote_super_stage w = Return tt →
  (PluginBase.stage repr w).1 =
    match remote_plugin_type w with
    | Return reported =>
        Raise (PluginMisconfigurationError
                 (PluginBase.misconfiguration_message repr
                    (prefix (self w)) (__name__ (cls (self w)))
                    (_plugin_type (cls (self w))) reported))
    | Raise e => Raise e
    end ∧
  calls (PluginBase.stage repr w).2 =
    calls w ++ [call_super_stage; call_plugin_type_get] ∧
  _misconfigured (self (PluginBase.stage repr w).2) = Some true ∧
  log (PluginBase.stage repr w).2 = log w.
Proof.
  intros Hm Hs. rewrite (stage_known repr w true Hm Hs). cbn.
  rewrite <- app_assoc. repeat split. exact Hm.
Qed.

Lemma X10_staging_misconfigured_plugin_raises_witness :
  (PluginBase.stage quote
     (run_event quote
        (constructed ROIPlugin "XF:Stats1:" None [] (Raise DestroyedError))
        (Connection true (Return "NDPluginStats 1.9.1")))).1 =
    Raise (PluginMisconfigurationError
             (PluginBase.misconfiguration_message quote "XF:Stats1:"
                "ROIPlugin" (Some "NDPluginROI") "NDPluginStats 1.9.1")).
Proof.
  exact (proj1
    (X10_staging_misconfigured_plugin_raises quote
       (run_event quote
          (constructed ROIPlugin "XF:Stats1:" None [] (Raise DestroyedError))
          (Connection true (Return "NDPluginStats 1.9.1")))
       eq_refl eq_refl)).
Defined.

(** An event changes nothing of the plugin but the state of the type
    check. *)
Lemma run_event_frame repr w e :
  ∃ m, self (run_event repr w e) = set_misconfigured m (self w).
Proof.
  assert (Hid : self w = set_misconfigured (_misconfigured (self w)) (self w))
    by (by destruct (self w)).
  destruct (_plugin_type (cls (self w))) as [t|] eqn:Ht.
  - destruct e as [connected get | super wait get]; unfold run_event;
      set (w0 := with_remote _ _ _ w);
      assert (Ht0 : _plugin_type (cls (self w0)) = Some t) by exact Ht.
    + destruct connected.
      * destruct get as [s|e].
        -- rewrite (connected_reads w0 t s Ht0 eq_refl). by eexists.
        -- rewrite (connected_raises w0 t e Ht0 eq_refl). by eexists.
      * rewrite connected_skips by (by left). by eexists.
    + destruct super as [[]|e].
      2:{ rewrite (stage_super_raises repr w0 e eq_refl). by eexists. }
      destruct (_misconfigured (self w0)) as [b|] eqn:Hm.
      { rewrite (stage_known repr w0 b Hm eq_refl).
        destruct b; by eexists. }
      destruct wait as [[]|e].
      2:{ rewrite (stage_wait_raises repr w0 e Hm eq_refl eq_refl).
          by eexists. }
      rewrite (stage_unknown repr w0 Hm eq_refl eq_refl). cbn zeta.
      set (w1 := with_call _ (with_call _ w0)).
      assert (Ht1 : _plugin_type (cls (self w1)) = Some t) by exact Ht.
      destruct get as [s|e].
      * rewrite (connected_reads w1 t s Ht1 eq_refl).
        destruct (truthy _); cbn -[others_ran]; rewrite ?others_ran_self;
          by eexists.
      * rewrite (connected_raises w1 t e Ht1 eq_refl).
        destruct (is_DestroyedError e); cbn -[others_ran]; [|by eexists].
        destruct (truthy _); cbn -[others_ran]; rewrite ?others_ran_self;
          by eexists.
  - destruct e as [connected get | super wait get]; unfold run_event;
      set (w0 := with_remote _ _ _ w);
      assert (Ht0 : _plugin_type (cls (self w0)) = None) by exact Ht.
    + rewrite connected_skips by (by right). by eexists.
    + destruct super as [[]|e].
      2:{ rewrite (stage_super_raises repr w0 e eq_refl). by eexists. }
      destruct (_misconfigured (self w0)) as [b|] eqn:Hm.
      { rewrite (stage_known repr w0 b Hm eq_refl).
        destruct b; by eexists. }
      destruct wait as [[]|e].
      2:{ rewrite (stage_wait_raises repr w0 e Hm eq_refl eq_refl).
          by eexists. }
      rewrite (stage_unknown repr w0 Hm eq_refl eq_refl). cbn zeta.
      rewrite connected_skips by (by right).
      destruct (truthy _); cbn -[others_ran]; rewrite ?others_ran_self;
        by eexists.
Qed.

(** X11. Type validation keeps to its own state: whatever connection
    notifications and stagings a plugin goes through, with whatever
    answers and failures of its collaborators, its staging directives, its
    prefix, its class and its parent are what they were; only the state of
    the type check may differ. *)
Theorem X11_validation_touches_only_its_state
    (repr : string → string) (es : list event) (w : World) :
  stage_sigs (self (run_events repr w es)) = stage_sigs (self w) ∧
  prefix (self (run_events repr w es)) = prefix (self w) ∧
  cls (self (run_events repr w es)) = cls (self w) ∧
  parent (self (run_events repr w es)) = parent (self w).
Proof.
  revert w. induction es as [|e es IH]; intros w; [done|].
  change (run_events repr w (e :: es))
    with (run_events repr (run_event repr w e) es).
  destruct (IH (run_event repr w e)) as (-> & -> & -> & ->).
  destruct (run_event_frame repr w e) as [m ->]. done.
Qed.

(** ** What the connection callback logs *)

(** X12. The connection callback never raises because of a mismatch: on a
    plugin with a declared type, a notification that reads a report returns
    normally and logs exactly one record, a warning when the report does
    not start with the declared type and a debug record when it does, with
    the prefix, the class name, the declared type and the report; the
    staging directives are not touched.  A notification that is skipped
    logs nothing. *)
Theorem X12_callback_logs_one_record (w : World) (t : string) :
  _plugin_type (cls (self w)) = Some t →
  (∀ report,
     remote_plugin_type w = Return report →
     (PluginBase._plugin_type_connected true w).1 = Return tt ∧
     log (PluginBase._plugin_type_connected true w).2 =
       log w ++
       [{| lvl := if startswith report t then DEBUG else WARNING;
           log_prefix := prefix (self w);
           log_class := __name__ (cls (self w));
           log_expected := t;
           log_reported := report |}] ∧
     stage_sigs (self (PluginBase._plugin_type_connected true w).2) =
       stage_sigs (self w)) ∧
  (∀ connected,
     connected = false ∨ remote_plugin_type w = Raise DestroyedError →
     (PluginBase._plugin_type_connected connected w).1 = Return tt ∧
     log (PluginBase._plugin_type_connected connected w).2 = log w).
Proof.
  intros Ht. split.
  - intros report Hr. rewrite (connected_reads w t report Ht Hr). cbn.
    destruct (startswith report t); repeat split.
  - intros connected [->|Hd].
    + rewrite connected_skips by (by left). done.
    + destruct connected.
      * rewrite (connected_raises w t _ Ht Hd). done.
      * rewrite connected_skips by (by left). done.
Qed.

Lemma X12_callback_logs_one_record_witness :
  log (PluginBase._plugin_type_connected true
         (constructed ROIPlugin "XF:Stats1:" None []
            (Return "NDPluginStats 1.9.1"))).2 =
    [{| lvl := WARNING; log_prefix := "XF:Stats1:"; log_class := "ROIPlugin";
        log_expected := "NDPluginROI";
        log_reported := "NDPluginStats 1.9.1" |}].
Proof.
  exact (proj1 (proj2 (proj1
    (X12_callback_logs_one_record
       (constructed ROIPlugin "XF:Stats1:" None []
          (Return "NDPluginStats 1.9.1"))
       "NDPluginROI" eq_refl)
    "NDPluginStats 1.9.1" eq_refl))).
Defined.

(** ** The directive methods *)

Section SetitemTwice.
Context {K V : Type} `{EqDecision K}.
Implicit Types (d : list (K * V)) (k : K) (v : V).

Lemma od_setitem_setitem k v v' d :
  od_setitem k v (od_setitem k v' d) = od_setitem k v d.
Proof.
  induction d as [|[k0 v0] d IH]; cbn.
  - by rewrite bool_decide_eq_true_2.
  - case_bool_decide as H0; cbn.
    + by rewrite bool_decide_eq_true_2.
    + rewrite bool_decide_eq_false_2 by done. by rewrite IH.
Qed.

Lemma od_setitem_same k v d : od_get k d = Some v → od_setitem k v d = d.
Proof.
  induction d as [|[k0 v0] d IH]; cbn; [done|].
  case_bool_decide as H0.
  - intros [= ->]. by subst.
  - intros Hg. by rewrite IH.
Qed.
End SetitemTwice.

Lemma init_sigs w :
  ∃ rest,
    stage_sigs (self (PluginBase.__init__ w).2) = ("enable", VInt 1) :: rest ∧
    od_get "blocking_callbacks" rest = Some (VStr "Yes").
Proof.
  rewrite init_runs. cbn -[od_setitem od_remove od_get].
  rewrite od_setitem_cons_ne by discriminate.
  destruct (parent (self w)) as [[[]]|]; cbn -[od_setitem od_remove od_get].
  - rewrite od_setitem_cons_ne by discriminate. eexists. split; [done|].
    rewrite od_get_setitem_ne by discriminate. apply od_get_setitem_eq.
  - eexists. split; [done|]. apply od_get_setitem_eq.
  - eexists. split; [done|]. apply od_get_setitem_eq.
Qed.

Lemma with_self_sigs f w :
  stage_sigs (self (with_self (fun p => set_stage_sigs (f (stage_sigs p)) p) w))
  = f (stage_sigs (self w)).
Proof. reflexivity. Qed.

(** X13. On a constructed plugin the directive methods change values and
    nothing else: [disable_on_stage] leaves ['enable'] the first directive,
    now 0, and every other directive in place; [enable_on_stage] after it
    gives back the set [__init__] built; [ensure_nonblocking] keeps the
    order of the directives and sets ['blocking_callbacks'] to ['No'], and
    [ensure_blocking] after it gives back the set [__init__] built. *)
Theorem X13_directive_methods_keep_the_order (w : World) :
  let w1 := (PluginBase.__init__ w).2 in
  ∃ rest,
    stage_sigs (self w1) = ("enable", VInt 1) :: rest ∧
    stage_sigs (self (PluginBase.disable_on_stage w1).2) =
      ("enable", VInt 0) :: rest ∧
    stage_sigs
      (self (PluginBase.enable_on_stage
               (PluginBase.disable_on_stage w1).2).2) = stage_sigs (self w1) ∧
    keys (stage_sigs (self (PluginBase.ensure_nonblocking w1).2)) =
      keys (stage_sigs (self w1)) ∧
    od_get "blocking_callbacks"
      (stage_sigs (self (PluginBase.ensure_nonblocking w1).2)) =
      Some (VStr "No") ∧
    stage_sigs
      (self (PluginBase.ensure_blocking
               (PluginBase.ensure_nonblocking w1).2).2) =
      stage_sigs (self w1).
Proof.
  cbv zeta. destruct (init_sigs w) as (rest & Hsigs & Hyes).
  set (w1 := (PluginBase.__init__ w).2) in *.
  exists rest. split; [exact Hsigs|].
  unfold PluginBase.disable_on_stage, PluginBase.enable_on_stage,
    PluginBase.ensure_nonblocking, PluginBase.ensure_blocking, modify.
  cbn [fst snd]. rewrite !with_self_sigs, Hsigs.
  assert (Hkey : "blocking_callbacks" ∈ keys (("enable", VInt 1) :: rest)).
  { rewrite keys_cons. apply elem_of_cons. right.
    by apply (od_get_Some_keys _ (VStr "Yes")). }
  repeat split.
  - rewrite keys_setitem_order. by rewrite bool_decide_eq_true_2.
  - apply od_get_setitem_eq.
  - rewrite od_setitem_setitem. apply od_setitem_same.
    cbn. rewrite bool_decide_eq_false_2 by discriminate. exact Hyes.
Qed.

(** ** The setter and an axis it does not know *)

Lemma last_component_of_min d :
  has_dot d = false → last_component ("min_xyz.min_" +:+ d) = "min_" +:+ d.
Proof.
  intros Hd. cbv beta iota delta [String.append].
  cbn [last_component has_dot Ascii.eqb Bool.eqb orb andb].
  rewrite Hd. reflexivity.
Qed.

Lemma getattr_unknown_axis d :
  d ∉ ["x"; "y"; "z"] →
  has_dot d = false →
  ROI.getattr ("min_xyz.min_" +:+ d) = Raise (AttributeError ("min_" +:+ d)).
Proof.
  rewrite !not_elem_of_cons. intros (Hx & Hy & Hz & _) Hd.
  unfold ROI.getattr.
  repeat case_bool_decide;
    try match goal with
        | H : _ +:+ d = _ |- _ => vm_compute in H; simplify_eq
        end.
  by rewrite last_component_of_min.
Qed.

Lemma set_items_unknown_axis before : ∀ d value after status r,
  Forall (fun kv => kv.1 ∈ ["x"; "y"; "z"]) before →
  d ∉ ["x"; "y"; "z"] →
  has_dot d = false →
  ROI.set_items (before ++ (d, value) :: after) status r =
    (Raise (AttributeError ("min_" +:+ d)),
     write_all r (region_writes before)).
Proof.
  induction before as [|[d0 [lo size]] before IH];
    intros d value after status r Hax Hd Hdot.
  - cbn [app ROI.set_items]. py_step.
    rewrite (getattr_unknown_axis d Hd Hdot). reflexivity.
  - apply Forall_cons in Hax as [Hd0 Hax]. cbn in Hd0.
    destruct (axis_points_valid d0 Hd0) as (pl & ps & Hpts).
    destruct (axis_points_getattr d0 pl ps Hpts) as (Hgl & Hgs & _).
    assert (Hrw : region_writes ((d0, (lo, size)) :: before) =
                  (pl, lo) :: (ps, size) :: region_writes before).
    { unfold region_writes. cbn [flat_map]. unfold axis_writes at 1.
      cbn [fst snd]. rewrite Hpts. reflexivity. }
    rewrite Hrw. clear Hrw.
    change (((d0, (lo, size)) :: before) ++ (d, value) :: after)
      with ((d0, (lo, size)) :: (before ++ (d, value) :: after)).
    cbn [ROI.set_items]. py_step.
    rewrite Hgl. cbn -[write_all region_writes fmap].
    rewrite Hgs. cbn -[write_all region_writes fmap].
    rewrite (IH d value after _ _ Hax Hd Hdot). reflexivity.
Qed.

(** X14. A region with an axis that is none of x, y and z, and has no dot
    in its name, makes the setter raise [AttributeError] for the component
    [min_] followed by the axis when it comes to that axis, with no write
    for it and none for the axes after it; the writes for the axes before
    it have been issued and are not undone, so a point the server took a
    value for holds that value although the call raised. *)
Theorem X14_roi_set_unknown_axis
    (before after : list (string * (Z * Z))) (d : string) (value : Z * Z)
    (r : Remote) :
  Forall (fun kv => kv.1 ∈ ["x"; "y"; "z"]) before →
  NoDup (keys before) →
  d ∉ ["x"; "y"; "z"] →
  has_dot d = false →
  let run := ROI.set (Some (before ++ (d, value) :: after)) r in
  run.1 = Raise (AttributeError ("min_" +:+ d)) ∧
  writes run.2 = writes r ++ region_writes before ∧
  (∀ p v, (p, v) ∈ region_writes before →
          accepts r p v = true → points run.2 !! p = Some v).
Proof.
  intros Hax Hnd Hd Hdot. cbv zeta.
  assert (Hrun : ROI.set (Some (before ++ (d, value) :: after)) r =
            (Raise (AttributeError ("min_" +:+ d)),
             write_all r (region_writes before))).
  { unfold ROI.set. py_step.
    rewrite (set_items_unknown_axis before d value after [] r Hax Hd Hdot).
    reflexivity. }
  rewrite Hrun. cbn [fst snd]. repeat split.
  - apply write_all_writes.
  - intros p v Hin Hacc.
    rewrite (write_all_point _ p v r (region_writes_NoDup _ Hnd) Hin).
    by rewrite Hacc.
Qed.

Lemma X14_roi_set_unknown_axis_witness :
  (ROI.set (Some ([("x", (10, 100))%Z] ++ ("w", (1, 2)%Z) :: [("y", (3, 4)%Z)]))
     rejects_size_x).1 = Raise (AttributeError "min_w") ∧
  writes
    (ROI.set (Some ([("x", (10, 100))%Z] ++ ("w", (1, 2)%Z) :: [("y", (3, 4)%Z)]))
       rejects_size_x).2 =
    writes rejects_size_x ++ region_writes [("x", (10, 100))%Z].
Proof.
  destruct (X14_roi_set_unknown_axis [("x", (10, 100))%Z] [("y", (3, 4)%Z)]
              "w" (1, 2)%Z rejects_size_x) as (Hraise & Hwrites & _).
  - repeat constructor.
  - by apply (bool_decide_unpack _).
  - by apply (bool_decide_unpack _).
  - reflexivity.
  - split; [exact Hraise | exact Hwrites].
Defined.

(** ** Cycles and the shape of a chain *)

(** X15. The pipeline walk does not detect cycles: when a set of plugins
    is closed under "is fed by" (every plugin of the set is fed by a plugin
    of the set), [_asyn_pipeline] of any of them comes to no result at any
    depth of recursion, and neither do [read_configuration] and
    [describe_configuration] when the plugins' own configurations can be
    read. *)
Theorem X15_cycle_never_resolves
    (t : Topology) (cycle : string → Prop) :
  (∀ p, cycle p →
        ∃ port q, nd_array_port_get t p = Return port ∧
                  get_plugin_by_asyn_port t port = Return (PluginDev q) ∧
                  cycle q) →
  ∀ fuel p,
    cycle p →
    Pipeline._asyn_pipeline fuel t p = None ∧
    ((∀ q, cycle q → ∃ c, own_read_configuration t (PluginDev q) = Return c) →
     Pipeline.read_configuration fuel t p = None) ∧
    ((∀ q, cycle q →
           ∃ c, own_describe_configuration t (PluginDev q) = Return c) →
     Pipeline.describe_configuration fuel t p = None).
Proof.
  intros Hclosed fuel.
  assert (Hcfg : ∀ own,
    (∀ q, cycle q → ∃ c, own t (PluginDev q) = Return c) →
    ∀ fuel p, cycle p → Pipeline.configuration own fuel t p = None).
  { intros own Hown. clear fuel.
    induction fuel as [|fuel IH]; intros p Hp; [reflexivity|].
    destruct (Hclosed p Hp) as (port & q & Hport & Hq & Hcq).
    destruct (Hown p Hp) as [c Hc].
    cbn. rewrite Hc. unfold Pipeline.source_plugin. rewrite Hport, Hq.
    by rewrite (IH q Hcq). }
  induction fuel as [|fuel IH]; intros p Hp.
  - repeat split; intros; by apply Hcfg.
  - destruct (Hclosed p Hp) as (port & q & Hport & Hq & Hcq).
    repeat split.
    + cbn. rewrite Hport, Hq. by rewrite (proj1 (IH q Hcq)).
    + intros Hown. by apply Hcfg.
    + intros Hown. by apply Hcfg.
Qed.

Lemma X15_cycle_never_resolves_witness :
  Pipeline._asyn_pipeline 1000 looping_topology "a" = None.
Proof.
  refine (proj1
    (X15_cycle_never_resolves looping_topology
       (fun p => p = "a" ∨ p = "b") _ 1000 "a" (or_introl eq_refl))).
  intros p [-> | ->].
  - exists "B", "b". repeat split. by right.
  - exists "A", "a". repeat split. by left.
Defined.

(** X16. Whatever [_asyn_pipeline] returns is a chain of at least two
    devices that ends in the plugin itself, and in which every device after
    the first is a plugin fed by the device before it: its source port,
    looked up in the root's port index, gives that device. *)
Theorem X16_chain_is_linked
    (t : Topology) (fuel : nat) (self : string) (chain : list device) :
  Pipeline._asyn_pipeline fuel t self = Some (Return chain) →
  last chain = Some (PluginDev self) ∧
  (2 ≤ length chain)%nat ∧
  ∀ i up d,
    chain !! i = Some up →
    chain !! (S i) = Some d →
    ∃ p, d = PluginDev p ∧ Pipeline.source_plugin t p = Return up.
Proof.
  revert self chain.
  induction fuel as [|fuel IH]; intros self chain Hrun; [done|].
  cbn in Hrun.
  destruct (nd_array_port_get t self) as [port|e] eqn:Hport; [|done].
  destruct (get_plugin_by_asyn_port t port) as [[q|n]|e] eqn:Hq; [| |done].
  - assert (Hsrc : Pipeline.source_plugin t self = Return (PluginDev q)).
    { unfold Pipeline.source_plugin. by rewrite Hport. }
    destruct (Pipeline._asyn_pipeline fuel t q) as [[cq|e]|] eqn:Hcq;
      [| |done].
    + injection Hrun as <-.
      destruct (IH q cq Hcq) as (Hlast & Hlen & Hlink).
      split; [apply last_snoc|]. split; [rewrite length_app; cbn; lia|].
      intros i up d Hi Hsi.
      destruct (decide (S i < length cq)%nat) as [Hin|Hout].
      * rewrite lookup_app_l in Hi by lia.
        rewrite lookup_app_l in Hsi by lia. by eapply Hlink.
      * assert (S i = length cq) as Hlast_i.
        { apply lookup_lt_Some in Hsi. rewrite length_app in Hsi.
          cbn in Hsi. lia. }
        rewrite lookup_app_l in Hi by lia.
        rewrite lookup_app_r, Hlast_i, Nat.sub_diag in Hsi by lia.
        injection Hsi as <-. exists self. split; [done|].
        rewrite last_lookup in Hlast.
        replace (pred (length cq)) with i in Hlast by lia. congruence.
    + destruct (is_AttributeError e); [|done]. injection Hrun as <-.
      split; [done|]. split; [cbn; lia|].
      intros [|[|i]] up d Hi Hsi; simplify_eq/=. eauto.
  - injection Hrun as <-.
    split; [done|]. split; [cbn; lia|].
    intros [|[|i]] up d Hi Hsi; simplify_eq/=.
    exists self. split; [done|]. unfold Pipeline.source_plugin.
    by rewrite Hport.
Qed.

Lemma X16_chain_is_linked_witness :
  last [OtherDev "cam"; PluginDev "roi1"; PluginDev "stats1"] =
    Some (PluginDev "stats1").
Proof.
  exact (proj1 (X16_chain_is_linked example_topology 2 "stats1"
                  [OtherDev "cam"; PluginDev "roi1"; PluginDev "stats1"]
                  eq_refl)).
Defined.

(** ** The merged configuration of a whole chain *)

Lemma od_update_NoDup (d o : list (string * pyval)) :
  NoDup (keys d) → NoDup (keys o) → NoDup (keys (od_update d o)).
Proof.
  intros Hd Ho. rewrite keys_update by done.
  apply NoDup_app. split; [done|]. split.
  - intros k Hk [Hn _]%list_elem_of_filter. done.
  - by apply NoDup_filter.
Qed.

Lemma upstream_first_snoc k cfg chain d :
  upstream_first k cfg (chain ++ [d]) =
    match upstream_first k cfg chain with
    | Some v => Some v
    | None => od_get k (cfg d)
    end.
Proof.
  unfold upstream_first. induction chain as [|d0 chain IH]; cbn.
  - by destruct (od_get k (cfg d)).
  - destruct (od_get k (cfg d0)); [done | exact IH].
Qed.

Lemma chain_configuration_lookup cfg chain :
  (∀ d, d ∈ chain → NoDup (keys (cfg d))) →
  NoDup (keys (chain_configuration cfg chain)) ∧
  ∀ k, od_get k (chain_configuration cfg chain) = upstream_first k cfg chain.
Proof.
  induction chain as [|d chain IH] using rev_ind; intros Hnd.
  - split; [constructor | done].
  - destruct chain as [|source plugins].
    + cbn. split.
      * apply Hnd, elem_of_app. right. by apply list_elem_of_singleton.
      * intros k. by destruct (od_get k (cfg d)).
    + destruct IH as [IHnd IHget].
      { intros d' Hd'. apply Hnd, elem_of_app. by left. }
      rewrite chain_configuration_snoc by done. split.
      * apply od_update_NoDup; [|done].
        apply Hnd, elem_of_app. right. by apply list_elem_of_singleton.
      * intros k. rewrite od_get_update by done.
        by rewrite upstream_first_snoc, IHget.
Qed.

Lemma upstream_first_found k cfg chain d :
  d ∈ chain → k ∈ keys (cfg d) → upstream_first k cfg chain ≠ None.
Proof.
  unfold upstream_first. induction chain as [|d0 chain IH]; cbn.
  - by intros ?%elem_of_nil.
  - intros [->|Hd]%elem_of_cons Hk.
    + destruct (od_get k (cfg d0)) eqn:Hg; [done|].
      by apply od_get_None in Hg.
    + destruct (od_get k (cfg d0)); [done | by apply IH].
Qed.

(** X17. Along a chain whose devices all answer [read_configuration] with
    mappings, the merged configuration of a plugin loses no field: every
    field of every device of the chain is in it, once; and the value of a
    field is that of the device nearest the root source that has the
    field. *)
Theorem X17_merged_configuration_of_a_chain
    (t : Topology) (cfg : device → list (string * pyval))
    (self : string) (chain : list device) :
  resolve_chain t self chain →
  (∀ d, d ∈ chain → own_read_configuration t d = Return (cfg d)) →
  (∀ d, d ∈ chain → NoDup (keys (cfg d))) →
  ∃ n merged,
    (∀ fuel, (n ≤ fuel)%nat →
       Pipeline.read_configuration fuel t self = Some (Return merged)) ∧
    NoDup (keys merged) ∧
    (∀ k, od_get k merged = upstream_first k cfg chain) ∧
    (∀ d k, d ∈ chain → k ∈ keys (cfg d) → k ∈ keys merged).
Proof.
  intros Hchain Hown Hnd.
  destruct (configuration_chain own_read_configuration t cfg self chain
              Hchain Hown) as [n Hn].
  destruct (chain_configuration_lookup cfg chain Hnd) as [Hnodup Hget].
  exists n, (chain_configuration cfg chain).
  split; [exact Hn|]. split; [exact Hnodup|]. split; [exact Hget|].
  intros d k Hd Hk.
  destruct (od_get k (chain_configuration cfg chain)) as [v|] eqn:Hg.
  - by apply od_get_Some_keys in Hg.
  - rewrite Hget in Hg.
    by destruct (upstream_first_found k cfg chain d Hd Hk).
Qed.

Lemma X17_merged_configuration_of_a_chain_witness :
  ∃ n merged,
    (∀ fuel, (n ≤ fuel)%nat →
       Pipeline.read_configuration fuel example_topology "stats1" =
         Some (Return merged)) ∧
    od_get "shared" merged = Some (VStr "cam").
Proof.
  destruct (X17_merged_configuration_of_a_chain example_topology
              example_configuration "stats1"
              ([OtherDev "cam"; PluginDev "roi1"] ++ [PluginDev "stats1"]))
    as (n & merged & Hrun & _ & Hget & _).
  - apply (resolve_plugin example_topology "stats1" "ROI1" "roi1");
      [reflexivity..|].
    by apply (resolve_source example_topology "roi1" "CAM" "cam").
  - reflexivity.
  - intros d Hd. destruct d as [p|p]; cbn; [case_bool_decide|];
      by apply (bool_decide_unpack _).
  - exists n, merged. split; [exact Hrun|]. rewrite Hget. reflexivity.
Defined.

(** ** Warming up *)

Lemma written_cons item items s :
  written (item :: items) s = written items (with_value item.1 item.2 s).
Proof. reflexivity. Qed.

Lemma written_trace items : ∀ s, trace (written items s) = trace s.
Proof.
  induction items as [|item items IH]; intros s; [done|].
  by rewrite written_cons, IH.
Qed.

Lemma set_and_wait_runs sig v s :
  set_and_wait sig v s =
    match set_fails s sig v with
    | Some e => (Raise e, with_io (io_set sig v) s)
    | None => (Return tt, with_value sig v (with_io (io_set sig v) s))
    end.
Proof.
  unfold set_and_wait. py_step. cbn. by destruct (set_fails s sig v).
Qed.

(** The loop with every write taken. *)
Lemma write_each_succeeds items : ∀ s,
  (∀ item, item ∈ items → set_fails s item.1 item.2 = None) →
  HDF5.write_each items s =
    (Return tt,
     written items
       {| values := values s; set_fails := set_fails s;
          trace := trace s ++ write_trace items |}).
Proof.
  induction items as [|[sig v] items IH]; intros s Hok.
  - cbn. rewrite app_nil_r. by destruct s.
  - cbn [HDF5.write_each]. unfold sleep. py_step.
    rewrite set_and_wait_runs. cbn [set_fails with_io].
    pose proof (Hok (sig, v) ltac:(apply elem_of_cons; by left)) as Hsig.
    cbn [fst snd] in Hsig. rewrite Hsig. rewrite IH.
    + rewrite written_cons. unfold with_value, write_trace. cbn.
      by rewrite <- !app_assoc.
    + intros item Hitem. apply Hok. apply elem_of_cons. by right.
Qed.

(** The loop up to a write that fails. *)
Lemma write_each_fails before : ∀ sig v after e s,
  (∀ item, item ∈ before → set_fails s item.1 item.2 = None) →
  set_fails s sig v = Some e →
  HDF5.write_each (before ++ (sig, v) :: after) s =
    (Raise e,
     written before
       {| values := values s; set_fails := set_fails s;
          trace := trace s ++ write_trace before
                   ++ [io_sleep 0.1; io_set sig v] |}).
Proof.
  induction before as [|[sig0 v0] before IH]; intros sig v after e s Hok Hfail.
  - cbn [app HDF5.write_each]. unfold sleep. py_step.
    rewrite set_and_wait_runs. cbn [set_fails with_io]. rewrite Hfail.
    unfold written, write_trace, with_io. cbn. by rewrite <- ?app_assoc.
  - change (((sig0, v0) :: before) ++ (sig, v) :: after)
      with ((sig0, v0) :: (before ++ (sig, v) :: after)).
    cbn [HDF5.write_each]. unfold sleep. py_step.
    rewrite set_and_wait_runs. cbn [set_fails with_io].
    pose proof (Hok (sig0, v0) ltac:(apply elem_of_cons; by left)) as Hsig.
    cbn [fst snd] in Hsig. rewrite Hsig. rewrite (IH sig v after e).
    + rewrite written_cons. unfold with_value, write_trace. cbn.
      by rewrite <- !app_assoc.
    + intros item Hitem. apply Hok. apply elem_of_cons. by right.
    + exact Hfail.
Qed.

Lemma read_all_runs signals : ∀ s,
  HDF5.read_all signals s =
    (Return ((fun sig => (sig, values s sig)) <$> signals),
     {| values := values s; set_fails := set_fails s;
        trace := trace s ++ (io_get <$> signals) |}).
Proof.
  induction signals as [|sig signals IH]; intros s.
  - cbn. rewrite app_nil_r. by destruct s.
  - cbn [HDF5.read_all]. unfold signal_get. py_step. cbn. rewrite IH.
    cbn. by rewrite <- !app_assoc.
Qed.

Lemma written_values_notin items x : ∀ s,
  x ∉ keys items → values (written items s) x = values s x.
Proof.
  induction items as [|[p v] items IH]; intros s Hx; [done|].
  rewrite keys_cons in Hx. apply not_elem_of_cons in Hx as [Hne Hx].
  rewrite written_cons, IH by done. cbn.
  by rewrite bool_decide_eq_false_2.
Qed.

Lemma written_values_in items x v : ∀ s,
  NoDup (keys items) → (x, v) ∈ items → values (written items s) x = v.
Proof.
  induction items as [|[p v'] items IH]; intros s Hnd Hin.
  - by apply elem_of_nil in Hin.
  - rewrite keys_cons in Hnd. apply NoDup_cons in Hnd as [Hp Hnd].
    rewrite written_cons. apply elem_of_cons in Hin as [Heq|Hin].
    + simplify_eq. rewrite written_values_notin by done. cbn.
      by rewrite bool_decide_eq_true_2.
    + by apply IH.
Qed.

Lemma warmup_sigs_NoDup : NoDup (keys HDF5.sigs) ∧ "enable" ∉ keys HDF5.sigs.
Proof. split; by apply (bool_decide_unpack _). Qed.

(** X18. When every write is taken, [warmup] enables the plugin, reads the
    six camera signals it is about to change, writes them in the order of
    its table, each after a pause of 0.1, pauses for 2, and writes the
    values it read back in the opposite order.  Afterwards every signal
    but ['enable'] holds what it held before; ['enable'] is left at 1. *)
Theorem X18_warmup_restores_the_camera (s : Ioc) :
  (∀ sig v, set_fails s sig v = None) →
  let original := (fun sig => (sig, values s sig)) <$> keys HDF5.sigs in
  (HDF5.warmup s).1 = Return tt ∧
  trace (HDF5.warmup s).2 =
    trace s ++ [io_set "enable" (VInt 1)] ++ (io_get <$> keys HDF5.sigs)
    ++ write_trace HDF5.sigs ++ [io_sleep 2]
    ++ write_trace (reverse original) ∧
  values (HDF5.warmup s).2 "enable" = VInt 1 ∧
  (∀ sig, sig ≠ "enable" → values (HDF5.warmup s).2 sig = values s sig).
Proof.
  intros Hok. cbv zeta.
  set (s1 := with_value "enable" (VInt 1)
               (with_io (io_set "enable" (VInt 1)) s)).
  set (original := (fun sig => (sig, values s1 sig)) <$> keys HDF5.sigs).
  assert (Horig : original =
                  (fun sig => (sig, values s sig)) <$> keys HDF5.sigs)
    by reflexivity.
  set (s2 := {| values := values s1; set_fails := set_fails s1;
                trace := trace s1 ++ (io_get <$> keys HDF5.sigs) |}).
  set (s3 := written HDF5.sigs
               {| values := values s2; set_fails := set_fails s2;
                  trace := trace s2 ++ write_trace HDF5.sigs |}).
  set (s4 := with_io (io_sleep 2) s3).
  set (s5 := written (reverse original)
               {| values := values s4; set_fails := set_fails s4;
                  trace := trace s4 ++ write_trace (reverse original) |}).
  assert (Hrun : HDF5.warmup s = (Return tt, s5)).
  { unfold HDF5.warmup, sleep. py_step.
    rewrite set_and_wait_runs, Hok. fold s1.
    rewrite read_all_runs. fold original s2.
    rewrite write_each_succeeds by (intros; apply Hok). fold s3.
    cbn [fst snd]. fold s4.
    rewrite write_each_succeeds by (intros; apply Hok). reflexivity. }
  rewrite Hrun. cbn [fst snd].
  destruct warmup_sigs_NoDup as [Hnd Hen].
  assert (Hkeys : keys (reverse original) = reverse (keys HDF5.sigs)).
  { reflexivity. }
  split; [reflexivity|]. split; [|split].
  - unfold s5. rewrite written_trace. cbn [trace].
    unfold s4, with_io. cbn [trace]. unfold s3. rewrite written_trace.
    cbn [trace]. rewrite Horig. cbn [trace s2 s1 with_value with_io].
    by rewrite <- !app_assoc.
  - unfold s5. rewrite written_values_notin.
    2:{ rewrite Hkeys. by rewrite elem_of_reverse. }
    cbn [values s4 with_io]. unfold s3.
    rewrite written_values_notin by done. reflexivity.
  - intros sig Hsig. unfold s5.
    destruct (decide (sig ∈ keys HDF5.sigs)) as [Hin|Hout].
    + rewrite (written_values_in _ sig (values s sig)).
      * reflexivity.
      * rewrite Hkeys. by apply (bool_decide_unpack _).
      * rewrite elem_of_reverse, Horig. apply list_elem_of_fmap.
        by exists sig.
    + rewrite written_values_notin.
      2:{ rewrite Hkeys. by rewrite elem_of_reverse. }
      cbn [values s4 with_io]. unfold s3.
      rewrite written_values_notin by done.
      cbn. by rewrite bool_decide_eq_false_2.
Qed.

Lemma X18_warmup_restores_the_camera_witness :
  values
    (HDF5.warmup
       (quiet_ioc (fun sig =>
          if bool_decide (sig = "parent.cam.image_mode")
          then VStr "Continuous" else VInt 0))).2
    "parent.cam.image_mode" = VStr "Continuous".
Proof.
  refine (proj2 (proj2 (proj2
    (X18_warmup_restores_the_camera
       (quiet_ioc (fun sig =>
          if bool_decide (sig = "parent.cam.image_mode")
          then VStr "Continuous" else VInt 0))
       (fun _ _ => eq_refl))))
    "parent.cam.image_mode" _).
  discriminate.
Defined.

(** X19. [warmup] does not clean up after a write that fails.  When
    enabling the plugin fails nothing else is done.  When the write of a
    camera signal fails after the writes before it were taken, the
    exception leaves [warmup] there: no value is written back, the signals
    written so far hold the values of the table and ['enable'] is 1. *)
Theorem X19_warmup_stops_at_a_failed_write
    (s : Ioc) (e : exn) :
  (set_fails s "enable" (VInt 1) = Some e →
   HDF5.warmup s = (Raise e, with_io (io_set "enable" (VInt 1)) s)) ∧
  (∀ before sig v after,
     HDF5.sigs = before ++ (sig, v) :: after →
     set_fails s "enable" (VInt 1) = None →
     (∀ item, item ∈ before → set_fails s item.1 item.2 = None) →
     set_fails s sig v = Some e →
     (HDF5.warmup s).1 = Raise e ∧
     trace (HDF5.warmup s).2 =
       trace s ++ [io_set "enable" (VInt 1)] ++ (io_get <$> keys HDF5.sigs)
       ++ write_trace before ++ [io_sleep 0.1; io_set sig v] ∧
     values (HDF5.warmup s).2 "enable" = VInt 1 ∧
     (∀ item, item ∈ before → values (HDF5.warmup s).2 item.1 = item.2)).
Proof.
  split.
  - intros Hfail. unfold HDF5.warmup. py_step.
    rewrite set_and_wait_runs, Hfail. reflexivity.
  - intros before sig v after Hsplit Hen Hok Hfail.
    set (s1 := with_value "enable" (VInt 1)
                 (with_io (io_set "enable" (VInt 1)) s)).
    set (s2 := {| values := values s1; set_fails := set_fails s1;
                  trace := trace s1 ++ (io_get <$> keys HDF5.sigs) |}).
    set (s3 := written before
                 {| values := values s2; set_fails := set_fails s2;
                    trace := trace s2 ++ write_trace before
                             ++ [io_sleep 0.1; io_set sig v] |}).
    assert (Hrun : HDF5.warmup s = (Raise e, s3)).
    { unfold HDF5.warmup, sleep. py_step.
      rewrite set_and_wait_runs, Hen. fold s1.
      rewrite read_all_runs. fold s2. cbn [fst snd].
      replace (HDF5.write_each HDF5.sigs s2)
        with (HDF5.write_each (before ++ (sig, v) :: after) s2)
        by (by rewrite Hsplit).
      by rewrite (write_each_fails before sig v after e s2 Hok Hfail). }
    rewrite Hrun. cbn [fst snd].
    destruct warmup_sigs_NoDup as [Hnd Hnoen].
    rewrite Hsplit in Hnd, Hnoen. unfold keys in Hnd, Hnoen.
    rewrite fmap_app in Hnd, Hnoen.
    apply NoDup_app in Hnd as (Hndb & _ & _).
    apply not_elem_of_app in Hnoen as [Hnoen _].
    split; [reflexivity|]. split; [|split].
    + unfold s3. rewrite written_trace. cbn [trace s2 s1 with_value with_io].
      by rewrite <- !app_assoc.
    + unfold s3. rewrite written_values_notin by done. reflexivity.
    + intros [x vx] Hitem. unfold s3. by apply written_values_in.
Qed.

Lemma X19_warmup_stops_at_a_failed_write_witness :
  (HDF5.warmup (no_trigger_mode_ioc (fun _ => VInt 0))).1 =
    Raise (External "TimeoutError") ∧
  values (HDF5.warmup (no_trigger_mode_ioc (fun _ => VInt 0))).2
    "parent.cam.image_mode" = VStr "Single".
Proof.
  destruct (proj2 (X19_warmup_stops_at_a_failed_write
                     (no_trigger_mode_ioc (fun _ => VInt 0))
                     (External "TimeoutError"))
              [("parent.cam.array_callbacks", VInt 1);
               ("parent.cam.image_mode", VStr "Single")]
              "parent.cam.trigger_mode" (VStr "Internal")
              [("parent.cam.acquire_time", VInt 1);
               ("parent.cam.acquire_period", VInt 1);
               ("parent.cam.acquire", VInt 1)]
              eq_refl eq_refl)
    as (Hraise & _ & _ & Hvalues).
  - intros item Hitem. by repeat (apply elem_of_cons in Hitem as [->|Hitem]);
      [..|apply elem_of_nil in Hitem].
  - reflexivity.
  - split; [exact Hraise|].
    apply (Hvalues ("parent.cam.image_mode", VStr "Single")).
    apply elem_of_cons. right. apply elem_of_cons. by left.
Defined.
